(** * nexus3-cli: the asset-deletion pipeline

    A shallow embedding of
    - [src/nexuscli/api/repository/collection.py] ([RepositoryCollection.delete_assets]),
    - [src/nexuscli/cli/subcommand_repository.py] ([_cmd_del_assets] and its two commands),
    - [src/nexuscli/cli/root_commands.py] ([_cmd_del_assets], [cmd_delete]),
    with the Python built-ins and the [json] codec they call. *)

From Stdlib Require Import ZArith String Ascii List DecimalString Lia.
From stdpp Require Import base option list strings gmap.

Set Warnings "-register-all".

(** ** Python values

    The values the code handles are what [json.loads] produces and what
    [json.dumps] consumes: [None], [bool], [int], [str], [list], [dict].
    A [str] is a [string] whose characters stand for the code points 0..255.
    A [dict] keeps its items in insertion order.  Python floats are not
    modelled. *)

Inductive json : Type :=
| JNull
| JBool (b : bool)
| JInt (n : Z)
| JStr (s : string)
| JList (l : list json)
| JDict (d : list (string * json)).

(** The exceptions that can travel through the pipeline.
    [NexusClientAPIError arg] is [exception.NexusClientAPIError(arg)];
    [OtherError] stands for whatever else a collaborator raises. *)
Inductive exn : Type :=
| NexusClientAPIError (arg : json)
| KeyError (key : string)
| TypeError
| JSONDecodeError
| OtherError (name : string).

(** A Python expression either raises or yields a value. *)
Definition result (A : Type) : Type := (exn + A)%type.

Module Py.

(** [d.get(k)] on an insertion-ordered dict. *)
Fixpoint dict_get (d : list (string * json)) (k : string) : option json :=
  match d with
  | [] => None
  | (k', v) :: d' => if String.eqb k' k then Some v else dict_get d' k
  end.

(** [d[k] = v]: replaces the value in place, or appends a new item. *)
Fixpoint dict_set (d : list (string * json)) (k : string) (v : json)
  : list (string * json) :=
  match d with
  | [] => [(k, v)]
  | (k', v') :: d' =>
      if String.eqb k' k then (k', v) :: d' else (k', v') :: dict_set d' k v
  end.

(** [needle in hay] for two strs. *)
Fixpoint str_contains (needle hay : string) : bool :=
  String.prefix needle hay ||
  match hay with
  | EmptyString => false
  | String _ hay' => str_contains needle hay'
  end.

Definition is_str (k : string) (v : json) : bool :=
  match v with
  | JStr s => String.eqb s k
  | _ => false
  end.

(** [k in v] for a str [k]: key of a dict, element of a list, substring of a
    str; the other values are not containers. *)
Definition contains (k : string) (v : json) : result bool :=
  match v with
  | JDict d => inr (if dict_get d k is Some _ then true else false)
  | JList l => inr (existsb (is_str k) l)
  | JStr s => inr (str_contains k s)
  | JNull | JBool _ | JInt _ => inl TypeError
  end.

(** [v[k]] for a str [k]. *)
Definition getitem (v : json) (k : string) : result json :=
  match v with
  | JDict d =>
      match dict_get d k with
      | Some x => inr x
      | None => inl (KeyError k)
      end
  | _ => inl TypeError
  end.

(** [v == None]. *)
Definition eq_None (v : json) : bool :=
  match v with
  | JNull => true
  | _ => false
  end.

(** [v == False]: [False] itself, and the int [0], which Python counts equal. *)
Definition eq_False (v : json) : bool :=
  match v with
  | JBool b => negb b
  | JInt n => Z.eqb n 0
  | _ => false
  end.

(** [len(v)]. *)
Definition len (v : json) : result nat :=
  match v with
  | JStr s => inr (String.length s)
  | JList l => inr (length l)
  | JDict d => inr (length d)
  | JNull | JBool _ | JInt _ => inl TypeError
  end.

Fixpoint join_strs (sep : string) (l : list string) : string :=
  match l with
  | [] => ""
  | [x] => x
  | x :: l' => x +:+ sep +:+ join_strs sep l'
  end.

Fixpoint chars (s : string) : list string :=
  match s with
  | EmptyString => []
  | String c s' => String c "" :: chars s'
  end.

Fixpoint all_strs (l : list json) : option (list string) :=
  match l with
  | [] => Some []
  | JStr s :: l' => (s ::.) <$> all_strs l'
  | _ :: _ => None
  end.

(** [sep.join(v)]: every item of the iterable must be a str; a dict iterates
    over its keys, a str over its characters. *)
Definition join (sep : string) (v : json) : result string :=
  match v with
  | JList l =>
      match all_strs l with
      | Some ss => inr (join_strs sep ss)
      | None => inl TypeError
      end
  | JStr s => inr (join_strs sep (chars s))
  | JDict d => inr (join_strs sep (fst <$> d))
  | JNull | JBool _ | JInt _ => inl TypeError
  end.

(** [str(n)] for a non-negative int. *)
Definition str_of_nat (n : nat) : string :=
  NilZero.string_of_uint (Nat.to_uint n).

(** [str(n)] for an int. *)
Definition str_of_int (n : Z) : string :=
  NilZero.string_of_int (Z.to_int n).

End Py.

(** ** The [json] codec

    [json.dumps] and [json.loads] of the Python standard library with their
    default arguments, on the values above. *)

Module Json.

(** The double quote and the backslash. *)
Definition dquote : ascii := Eval cbv in ascii_of_nat 34.
Definition backslash : ascii := Eval cbv in ascii_of_nat 92.

(** Writes a JSON text with ['] where the text has a double quote. *)
Fixpoint dq (s : string) : string :=
  match s with
  | EmptyString => EmptyString
  | String c s' => String (if Ascii.eqb c "'" then dquote else c) (dq s')
  end.

Definition hex_digit (n : nat) : ascii :=
  match n with
  | 0 => "0" | 1 => "1" | 2 => "2" | 3 => "3" | 4 => "4" | 5 => "5"
  | 6 => "6" | 7 => "7" | 8 => "8" | 9 => "9" | 10 => "a" | 11 => "b"
  | 12 => "c" | 13 => "d" | 14 => "e" | _ => "f"
  end%char.

(** One character of a str as [json.dumps] writes it ([ensure_ascii=True]):
    the quote, the backslash and the five short escapes, [\u00xx] for the
    rest outside [' '..'~'], and the character itself otherwise. *)
Definition escape_char (c : ascii) : string :=
  let n := nat_of_ascii c in
  if Ascii.eqb c dquote then String backslash (String dquote "")
  else if Ascii.eqb c backslash then String backslash (String backslash "")
  else if n =? 10 then String backslash "n"
  else if n =? 13 then String backslash "r"
  else if n =? 9 then String backslash "t"
  else if n =? 8 then String backslash "b"
  else if n =? 12 then String backslash "f"
  else if (n <? 32) || (126 <? n) then
    String backslash
      (String "u" (String "0" (String "0"
        (String (hex_digit (n / 16)) (String (hex_digit (n mod 16)) "")))))
  else String c "".

Fixpoint escape (s : string) : string :=
  match s with
  | EmptyString => EmptyString
  | String c s' => escape_char c +:+ escape s'
  end.

(** A str as a JSON string literal. *)
Definition quote (s : string) : string :=
  String dquote (escape s +:+ String dquote "").

(** [json.dumps(v)]: items separated by [", "], keys from values by [": "]. *)
Fixpoint dumps (v : json) : string :=
  match v with
  | JNull => "null"
  | JBool true => "true"
  | JBool false => "false"
  | JInt n => Py.str_of_int n
  | JStr s => quote s
  | JList l =>
      "[" +:+
      (fix items (l : list json) : string :=
         match l with
         | [] => ""
         | [x] => dumps x
         | x :: l' => dumps x +:+ ", " +:+ items l'
         end) l +:+ "]"
  | JDict d =>
      "{" +:+
      (fix items (d : list (string * json)) : string :=
         match d with
         | [] => ""
         | [(k, x)] => quote k +:+ ": " +:+ dumps x
         | (k, x) :: d' => quote k +:+ ": " +:+ dumps x +:+ ", " +:+ items d'
         end) d +:+ "}"
  end.

(** *** Decoding *)

Definition is_ws (c : ascii) : bool :=
  let n := nat_of_ascii c in
  (n =? 32) || (n =? 9) || (n =? 10) || (n =? 13).

Fixpoint skip_ws (s : string) : string :=
  match s with
  | String c s' => if is_ws c then skip_ws s' else s
  | EmptyString => s
  end.

Definition hex_value (c : ascii) : option nat :=
  let n := nat_of_ascii c in
  if (48 <=? n) && (n <=? 57) then Some (n - 48)
  else if (97 <=? n) && (n <=? 102) then Some (n - 87)
  else if (65 <=? n) && (n <=? 70) then Some (n - 55)
  else None.

Definition hex4 (a b c d : ascii) : option nat :=
  x1 ← hex_value a; x2 ← hex_value b; x3 ← hex_value c; x4 ← hex_value d;
  Some (((x1 * 16 + x2) * 16 + x3) * 16 + x4).

(** The character a short escape [\e] stands for. *)
Definition unescape (e : ascii) : option ascii :=
  if Ascii.eqb e dquote then Some dquote
  else if Ascii.eqb e backslash then Some backslash
  else if Ascii.eqb e "/" then Some "/"%char
  else if Ascii.eqb e "b" then Some (ascii_of_nat 8)
  else if Ascii.eqb e "f" then Some (ascii_of_nat 12)
  else if Ascii.eqb e "n" then Some (ascii_of_nat 10)
  else if Ascii.eqb e "r" then Some (ascii_of_nat 13)
  else if Ascii.eqb e "t" then Some (ascii_of_nat 9)
  else None.

(** The body of a string literal, after its opening quote: the decoded str
    and the text after the closing quote.  A raw control character ends the
    decoding (the decoder is strict), and so does an escape [\uXXXX] above
    [\u00ff], which is outside the characters modelled. *)
Fixpoint scanstring (s : string) : option (string * string) :=
  match s with
  | EmptyString => None
  | String c r =>
      if Ascii.eqb c dquote then Some (EmptyString, r)
      else if Ascii.eqb c backslash then
        match r with
        | String e r' =>
            if Ascii.eqb e "u" then
              match r' with
              | String h1 (String h2 (String h3 (String h4 r''))) =>
                  n ← hex4 h1 h2 h3 h4;
                  if n <? 256 then
                    '(x, rest) ← scanstring r''; Some (String (ascii_of_nat n) x, rest)
                  else None
              | _ => None
              end
            else
              ch ← unescape e;
              '(x, rest) ← scanstring r'; Some (String ch x, rest)
        | EmptyString => None
        end
      else if nat_of_ascii c <? 32 then None
      else '(x, rest) ← scanstring r; Some (String c x, rest)
  end.

Definition is_digit (c : ascii) : bool :=
  let n := nat_of_ascii c in (48 <=? n) && (n <=? 57).

(** The leading digits of [s], read in base ten after the digits [acc]. *)
Fixpoint scan_digits (acc : Z) (s : string) : Z * string :=
  match s with
  | String c s' =>
      if is_digit c
      then scan_digits (acc * 10 + Z.of_nat (nat_of_ascii c - 48)) s'
      else (acc, s)
  | EmptyString => (acc, s)
  end.

(** The integer part of a number, [0] or [[1-9][0-9]*]. *)
Definition scan_nat (s : string) : option (Z * string) :=
  match s with
  | String c s' =>
      if Ascii.eqb c "0" then Some (0%Z, s')
      else if is_digit c then Some (scan_digits 0 s)
      else None
  | EmptyString => None
  end.

(** An int, with its sign.  A text that goes on with a fraction or an exponent
    is a float for Python; here the caller finds no delimiter after the int
    and the decoding yields nothing. *)
Definition scan_int (s : string) : option (json * string) :=
  match s with
  | String c s' =>
      if Ascii.eqb c "-"
      then '(n, r) ← scan_nat s'; Some (JInt (- n), r)
      else '(n, r) ← scan_nat s; Some (JInt n, r)
  | EmptyString => None
  end.

(** [s] without the prefix [p]. *)
Fixpoint strip_prefix (p s : string) : option string :=
  match p, s with
  | EmptyString, _ => Some s
  | String a p', String b s' => if Ascii.eqb a b then strip_prefix p' s' else None
  | String _ _, EmptyString => None
  end.

(** The items of an array after its first value position: a value, then [,]
    and the next item, or []] and the end.  [pv] decodes one value. *)
Fixpoint scan_items (pv : string → option (json * string)) (fuel : nat)
    (acc : list json) (s : string) : option (json * string) :=
  match fuel with
  | O => None
  | S fuel' =>
      '(v, r) ← pv (skip_ws s);
      match skip_ws r with
      | String c r' =>
          if Ascii.eqb c "]" then Some (JList (acc ++ [v]), r')
          else if Ascii.eqb c "," then scan_items pv fuel' (acc ++ [v]) r'
          else None
      | EmptyString => None
      end
  end.

(** The members of an object: a string key, [:], a value, then [,] or [}].
    A key met again keeps its place and takes the later value. *)
Fixpoint scan_members (pv : string → option (json * string)) (fuel : nat)
    (acc : list (string * json)) (s : string) : option (json * string) :=
  match fuel with
  | O => None
  | S fuel' =>
      match skip_ws s with
      | String c0 r0 =>
          if Ascii.eqb c0 dquote then
            '(k, r1) ← scanstring r0;
            match skip_ws r1 with
            | String c1 r2 =>
                if Ascii.eqb c1 ":" then
                  '(v, r3) ← pv (skip_ws r2);
                  match skip_ws r3 with
                  | String c r' =>
                      if Ascii.eqb c "}" then Some (JDict (Py.dict_set acc k v), r')
                      else if Ascii.eqb c ","
                      then scan_members pv fuel' (Py.dict_set acc k v) r'
                      else None
                  | EmptyString => None
                  end
                else None
            | EmptyString => None
            end
          else None
      | EmptyString => None
      end
  end.

(** One JSON value at the head of [s] (no leading whitespace) and the text
    after it.  [fuel] bounds the nesting and the number of items. *)
Fixpoint scan_once (fuel : nat) (s : string) : option (json * string) :=
  match fuel with
  | O => None
  | S fuel' =>
      match s with
      | EmptyString => None
      | String c r =>
          if Ascii.eqb c dquote then
            '(x, rest) ← scanstring r; Some (JStr x, rest)
          else if Ascii.eqb c "{" then
            match skip_ws r with
            | String c' r' =>
                if Ascii.eqb c' "}" then Some (JDict [], r')
                else scan_members (scan_once fuel') fuel' [] r
            | EmptyString => None
            end
          else if Ascii.eqb c "[" then
            match skip_ws r with
            | String c' r' =>
                if Ascii.eqb c' "]" then Some (JList [], r')
                else scan_items (scan_once fuel') fuel' [] r
            | EmptyString => None
            end
          else if Ascii.eqb c "n" then r' ← strip_prefix "ull" r; Some (JNull, r')
          else if Ascii.eqb c "t" then r' ← strip_prefix "rue" r; Some (JBool true, r')
          else if Ascii.eqb c "f" then r' ← strip_prefix "alse" r; Some (JBool false, r')
          else scan_int s
      end
  end.

(** [json.loads(s)]: one value between optional whitespace and nothing else;
    [None] is [JSONDecodeError].  Every value and every item takes at least
    one character, so the length of the text is fuel enough.  A text that
    Python decodes into a float (a fraction, an exponent, [NaN], [Infinity])
    yields nothing here. *)
Definition loads (s : string) : option json :=
  '(v, r) ← scan_once (S (String.length s)) (skip_ws s);
  match skip_ws r with
  | EmptyString => Some v
  | String _ _ => None
  end.

End Json.

(** ** Programs with calls to collaborators

    A method of the code is a tree: it returns, raises, or calls a
    collaborator (an event of [E]) and goes on with what the call returned or
    raised.  The methods modelled have no loop, so the trees are finite. *)

Inductive prog (E : Type → Type) (A : Type) : Type :=
| Ret (a : A)
| Raise (e : exn)
| Call {X : Type} (c : E X) (k : result X → prog E A).

Arguments Ret {E A} a.
Arguments Raise {E A} e.
Arguments Call {E A X} c k.

Fixpoint bind {E A B} (p : prog E A) (f : A → prog E B) : prog E B :=
  match p with
  | Ret a => f a
  | Raise e => Raise e
  | Call c k => Call c (λ r, bind (k r) f)
  end.

#[global] Instance prog_ret {E} : MRet (prog E) := λ A a, Ret a.
#[global] Instance prog_bind {E} : MBind (prog E) := λ A B f p, bind p f.

(** A call whose exception, if any, is raised on. *)
Definition call {E X} (c : E X) : prog E X :=
  Call c (λ r, match r with inl e => Raise e | inr x => Ret x end).

(** The value or the exception of a pure expression. *)
Definition lift {E A} (r : result A) : prog E A :=
  match r with
  | inl e => Raise e
  | inr a => Ret a
  end.

(** [try: p  except ...: h e]: [h] tells which exceptions the clause
    catches, and what runs then. *)
Fixpoint try_except {E A} (p : prog E A) (h : exn → option (prog E A))
  : prog E A :=
  match p with
  | Ret a => Ret a
  | Raise e => if h e is Some handled then handled else Raise e
  | Call c k => Call c (λ r, try_except (k r) h)
  end.

(** What the collaborators do: each call answers or raises, and may change
    the world [W]. *)
Definition handler (E : Type → Type) (W : Type) : Type :=
  ∀ X, E X → W → result X * W.

(** One call made during a run, with its answer. *)
Record entry (E : Type → Type) : Type := Entry {
  entry_type : Type;
  entry_call : E entry_type;
  entry_result : result entry_type
}.

Arguments Entry {E entry_type} entry_call entry_result.
Arguments entry_type {E} e.
Arguments entry_call {E} e.
Arguments entry_result {E} e.

(** A finished run: what the method returned or raised, the world it left
    and the calls it made, in order. *)
Record run (E : Type → Type) (W A : Type) : Type := Run {
  outcome : result A;
  world : W;
  trace : list (entry E)
}.

Arguments Run {E W A} outcome world trace.
Arguments outcome {E W A} r.
Arguments world {E W A} r.
Arguments trace {E W A} r.

(** The run [r] after the call [e]. *)
Definition after {E W A} (e : entry E) (r : run E W A) : run E W A :=
  Run (outcome r) (world r) (e :: trace r).

Fixpoint exec {E W A} (h : handler E W) (p : prog E A) (w : W) : run E W A :=
  match p with
  | Ret a => Run (inr a) w []
  | Raise e => Run (inl e) w []
  | Call c k =>
      let '(r, w') := h _ c w in
      after (Entry c r) (exec h (k r) w')
  end.

(** ** [nexuscli/api/repository/collection.py] *)

Module Collection.

Definition SCRIPT_NAME_CREATE : string := "nexus3-cli-repository-create".
Definition SCRIPT_NAME_DELETE : string := "nexus3-cli-repository-delete".
Definition SCRIPT_NAME_DELETE_ASSETS : string :=
  "nexus3-cli-repository-delete-assets".

(** The methods of [self._client.scripts] that the collection calls. *)
Inductive scriptsE : Type → Type :=
| scripts_delete (name : string) : scriptsE unit
| scripts_create_if_missing (name content : string) : scriptsE unit
| scripts_run (name data : string) : scriptsE json.

(** [json.loads(v)]: only a str is decoded. *)
Definition json_loads (v : json) : result json :=
  match v with
  | JStr s =>
      match Json.loads s with
      | Some x => inr x
      | None => inl JSONDecodeError
      end
  | _ => inl TypeError
  end.

(** The dict [jsonData] that [delete_assets] fills, key after key. *)
Definition jsonData (reponame assetRegex : string) (isWildcard dryRun : bool)
  : list (string * json) :=
  let jsonData := [] in
  let jsonData := Py.dict_set jsonData "repoName" (JStr reponame) in
  let jsonData := Py.dict_set jsonData "assetRegex" (JStr assetRegex) in
  let jsonData := Py.dict_set jsonData "isWildcard" (JBool isWildcard) in
  let jsonData := Py.dict_set jsonData "dryRun" (JBool dryRun) in
  jsonData.

Section DeleteAssets.

(** [nexus_util.groovy_script]: the body of a packaged script, by name. *)
Variable groovy_script : string → string.

(** [RepositoryCollection.delete_assets(reponame, assetRegex, isWildcard,
    dryRun)]. *)
Definition delete_assets (reponame assetRegex : string)
    (isWildcard dryRun : bool) : prog scriptsE json :=
  let content := groovy_script SCRIPT_NAME_DELETE_ASSETS in
  call (scripts_delete SCRIPT_NAME_DELETE_ASSETS);;
  call (scripts_create_if_missing SCRIPT_NAME_DELETE_ASSETS content);;
  groovy_returned_json ←
    call (scripts_run SCRIPT_NAME_DELETE_ASSETS
            (Json.dumps (JDict (jsonData reponame assetRegex isWildcard dryRun))));
  has_result ← lift (Py.contains "result" groovy_returned_json);
  if negb has_result then Raise (NexusClientAPIError groovy_returned_json)
  else
    result_text ← lift (Py.getitem groovy_returned_json "result");
    script_result ← lift (json_loads result_text);
    no_assets ←
      (if Py.eq_None script_result then Ret true
       else
         has_assets ← lift (Py.contains "assets" script_result);
         Ret (negb has_assets));
    if (no_assets : bool) then Raise (NexusClientAPIError groovy_returned_json)
    else
      failed ←
        (has_success ← lift (Py.contains "success" script_result);
         if (has_success : bool) then
           success ← lift (Py.getitem script_result "success");
           Ret (Py.eq_False success)
         else Ret false);
      if (failed : bool) then
        error ← lift (Py.getitem script_result "error");
        Raise (NexusClientAPIError error)
      else
        assets_list ← lift (Py.getitem script_result "assets");
        if Py.eq_None assets_list then Ret (JList []) else Ret assets_list.

End DeleteAssets.

(** Modelled from the spec: the enumeration [AssetMatchOptions] (the spec's
    MatchMode: exact name, wildcard, regex), which [root_commands.py] and the
    tests import from [collection.py] and whose declaration is not in the
    sources.  The members are the ones the callers name. *)
Inductive AssetMatchOptions : Type :=
| EXACT_NAME
| WILDCARD
| REGEX.

(** [option.name]: the name of a member, as Python's [Enum] gives it. *)
Definition name (o : AssetMatchOptions) : string :=
  match o with
  | EXACT_NAME => "EXACT_NAME"
  | WILDCARD => "WILDCARD"
  | REGEX => "REGEX"
  end.

End Collection.

(** ** What the commands of [nexuscli/cli] call *)

Module Cli.

(** Modelled from the spec: the enumeration [errors.CliReturnCode], whose
    declaration ([nexuscli/cli/errors.py]) is not among the sources.  The
    members are the ones the commands name; the spec gives [SUCCESS] the
    value 0 and the other members non-zero values of their own.  A command
    returns the [.value] of a member; a run keeps the member. *)
Inductive CliReturnCode : Type :=
| SUCCESS
| NO_FILES
| API_ERROR
| INVALID_SUBCOMMAND
| UNKNOWN_ERROR.

(** The calls of a command: [nexus_client.repositories.delete_assets] with
    its third argument of type [M], [nexus_client.split_component_path],
    [util.input_with_default], [print], [sys.stdout.write] and
    [sys.stderr.write]. *)
Inductive cliE (M : Type) : Type → Type :=
| repositories_delete_assets (repoName assetName : string) (m : M)
    (dryRun : bool) : cliE M json
| split_component_path (component_path : string)
    : cliE M (string * option string * option string)
| input_with_default (prompt default : string) : cliE M string
| print (s : string) : cliE M unit
| stdout_write (s : string) : cliE M unit
| stderr_write (s : string) : cliE M unit.

Arguments repositories_delete_assets {M} repoName assetName m dryRun.
Arguments split_component_path {M} component_path.
Arguments input_with_default {M} prompt default.
Arguments print {M} s.
Arguments stdout_write {M} s.
Arguments stderr_write {M} s.

Definition nl : string := String (ascii_of_nat 10) "".

(** A str between double quotes, as an f-string writes ["{s}"]. *)
Definition quoted (s : string) : string :=
  String Json.dquote (s +:+ String Json.dquote "").

(** The entries of a trace that are the confirmation prompt, and the ones
    that are a call of the matcher with the given [dryRun]. *)
Definition is_prompt {M} (e : entry (cliE M)) : bool :=
  match entry_call e with
  | input_with_default _ _ => true
  | _ => false
  end.

Definition is_delete_assets {M} (dry : bool) (e : entry (cliE M)) : bool :=
  match entry_call e with
  | repositories_delete_assets _ _ _ dryRun => Bool.eqb dryRun dry
  | _ => false
  end.

End Cli.

(** ** [nexuscli/cli/subcommand_repository.py] *)

Module SubcommandRepository.
Import Cli.

(** [_cmd_del_assets(nexus_client, repoName, assetRegex, isWildcard,
    doForce)]. *)
Definition _cmd_del_assets (repoName assetRegex : string)
    (isWildcard doForce : bool) : prog (cliE bool) CliReturnCode :=
  let real_delete : prog (cliE bool) CliReturnCode :=
    assets_list ←
      call (repositories_delete_assets repoName assetRegex isWildcard false);
    n ← lift (Py.len assets_list);
    if n =? 0 then
      call (stdout_write ("Found 0 matching assets: aborting delete" +:+ nl));;
      Ret SUCCESS
    else
      n ← lift (Py.len assets_list);
      joined ← lift (Py.join nl assets_list);
      call (stdout_write ("Deleted " +:+ Py.str_of_nat n +:+
                          " matching assets:" +:+ nl +:+ joined +:+ nl));;
      Ret SUCCESS in
  if negb doForce then
    call (stdout_write ("Retrieving assets matching " +:+ assetRegex +:+ nl));;
    assets_list ←
      call (repositories_delete_assets repoName assetRegex isWildcard true);
    n ← lift (Py.len assets_list);
    if n =? 0 then
      call (stdout_write ("Found 0 matching assets: aborting delete" +:+ nl));;
      Ret SUCCESS
    else
      n ← lift (Py.len assets_list);
      joined ← lift (Py.join nl assets_list);
      call (stdout_write ("Found " +:+ Py.str_of_nat n +:+
                          " matching assets:" +:+ nl +:+ joined +:+ nl));;
      call (input_with_default "Press ENTER to confirm deletion"
                               "ctrl+c to cancel");;
      real_delete
  else real_delete.

(** The arguments docopt hands to the two commands. *)
Record args : Type := Args {
  repo_name : string;
  assets_pattern : string;
  force : bool
}.

(** [cmd_del_assets_regex(nexus_client, args)]. *)
Definition cmd_del_assets_regex (a : args) : prog (cliE bool) CliReturnCode :=
  let repoName := repo_name a in
  let assetRegex := assets_pattern a in
  let doForce := force a in
  _cmd_del_assets repoName assetRegex false doForce.

(** [cmd_del_assets_wildcard(nexus_client, args)]. *)
Definition cmd_del_assets_wildcard (a : args)
  : prog (cliE bool) CliReturnCode :=
  let repoName := repo_name a in
  let assetWildcard := assets_pattern a in
  let doForce := force a in
  _cmd_del_assets repoName assetWildcard true doForce.

End SubcommandRepository.

(** ** [nexuscli/cli/root_commands.py] *)

Module RootCommands.
Import Cli.
Import Collection.

Section Commands.

(** [inflect.engine().plural]: the plural of a word for a count. *)
Variable PLURAL : string → nat → string.

(** [str(v)], as an f-string writes the argument of an exception. *)
Variable py_str : json → string.

(** [_cmd_del_assets(nexus_client, repoName, assetName, assetMatchOption,
    doForce)]. *)
Definition _cmd_del_assets (repoName assetName : string)
    (assetMatchOption : AssetMatchOptions) (doForce : bool)
  : prog (cliE AssetMatchOptions) CliReturnCode :=
  let real_delete : prog (cliE AssetMatchOptions) CliReturnCode :=
    assets_list ←
      call (repositories_delete_assets repoName assetName assetMatchOption
              false);
    delete_count ← lift (Py.len assets_list);
    if delete_count =? 0 then
      let file_word := PLURAL "file" delete_count in
      call (stderr_write ("Deleted " +:+ Py.str_of_nat delete_count +:+ " " +:+
                          file_word +:+ nl));;
      Ret SUCCESS
    else
      n ← lift (Py.len assets_list);
      joined ← lift (Py.join nl assets_list);
      call (print ("Deleted " +:+ Py.str_of_nat n +:+ " matching assets:" +:+
                   nl +:+ joined));;
      Ret SUCCESS in
  if negb doForce then
    call (print ("Retrieving assets matching " +:+ name assetMatchOption +:+
                 " " +:+ quoted assetName +:+ " from repository " +:+
                 quoted repoName));;
    preview ←
      try_except
        (assets_list ←
           call (repositories_delete_assets repoName assetName
                   assetMatchOption true);
         Ret (inr assets_list))
        (λ e,
           match e with
           | NexusClientAPIError arg =>
               Some (call (stderr_write ("Error while running API: " +:+
                                         py_str arg +:+ nl));;
                     Ret (inl API_ERROR))
           | _ => None
           end);
    match preview with
    | inl code => Ret code
    | inr assets_list =>
        n ← lift (Py.len assets_list);
        if n =? 0 then
          call (print "Found 0 matching assets: aborting delete");;
          Ret SUCCESS
        else
          n ← lift (Py.len assets_list);
          joined ← lift (Py.join nl assets_list);
          call (print ("Found " +:+ Py.str_of_nat n +:+ " matching assets:" +:+
                       nl +:+ joined));;
          call (input_with_default "Press ENTER to confirm deletion"
                                   "ctrl+c to cancel");;
          real_delete
    end
  else real_delete.

(** The options docopt hands to [cmd_delete]. *)
Record options : Type := Options {
  repository_path : string;
  wildcard : bool;
  regex : bool;
  force : bool
}.

(** [cmd_delete(nexus_client, options)]. *)
Definition cmd_delete (o : options)
  : prog (cliE AssetMatchOptions) CliReturnCode :=
  '(repoName, repoDir, assetName) ←
    call (split_component_path (repository_path o));
  match repoDir, assetName with
  | Some repoDir, Some assetName =>
      let assetName := repoDir +:+ "/" +:+ assetName in
      let assetMatch := EXACT_NAME in
      if wildcard o && regex o then
        call (stderr_write ("Cannot provide both --regex and --wildcard" +:+ nl));;
        Ret INVALID_SUBCOMMAND
      else
        let assetMatch :=
          if wildcard o then WILDCARD
          else if regex o then REGEX
          else assetMatch in
        _cmd_del_assets repoName assetName assetMatch (force o)
  | _, _ =>
      call (stderr_write ("Invalid <repository_path> provided" +:+ nl));;
      Ret INVALID_SUBCOMMAND
  end.

End Commands.

End RootCommands.

(** ** The script service *)

Module Service.
Import Collection.

(** Modelled from the spec: the service behind [self._client.scripts]
    ([nexuscli/api/script] is not among the sources), as sections 4.1 and 4.2
    of the spec describe the script registry and the script invoker.  The
    service keeps the installed scripts by name, and its repositories. *)
Record state (A : Type) : Type := State {
  scripts : gmap string string;
  repositories : A
}.

Arguments State {A} scripts repositories.
Arguments scripts {A} s.
Arguments repositories {A} s.

Section Service.
Context {A : Type}.

(** The service running a script body on a payload: its answer, and what it
    leaves of the repositories. *)
Variable run_script : string → string → A → result json * A.

(** The raw body of the answer for a script that is not installed. *)
Variable unknown_script : json.

(** Modelled from the spec: [scripts.delete] removes the script of that name
    and counts a missing one as done; [scripts.create_if_missing] installs a
    script only when the name is free; [scripts.run] runs the installed body
    on the payload and answers with the decoded response, or fails with an
    API error that carries the raw body. *)
Definition handle : handler scriptsE (state A) :=
  λ X c st,
    match c in scriptsE X return result X * state A with
    | scripts_delete name =>
        (inr (), State (delete name (scripts st)) (repositories st))
    | scripts_create_if_missing name content =>
        (inr (),
         if scripts st !! name is Some _ then st
         else State (<[name := content]> (scripts st)) (repositories st))
    | scripts_run name data =>
        match scripts st !! name with
        | Some body =>
            let '(answer, repos) := run_script body data (repositories st) in
            (answer, State (scripts st) repos)
        | None => (inl (NexusClientAPIError unknown_script), st)
        end
    end.

End Service.

End Service.

(** ** The request on the wire *)

Module Wire.
Import Collection.

(** Modelled from the spec: [DeletionRequest] (section 3), a repository
    name, a pattern, a match mode and the dry-run flag.  The sources have no
    such type: [delete_assets] takes the four fields of the payload. *)
Record DeletionRequest : Type := Request {
  repositoryName : string;
  pattern : string;
  mode : AssetMatchOptions;
  dryRun : bool
}.

(** Modelled from the spec: [isWildcard] is "the mode is Wildcard" (section
    4.3, step 2). *)
Definition is_wildcard (m : AssetMatchOptions) : bool :=
  match m with
  | WILDCARD => true
  | EXACT_NAME | REGEX => false
  end.

(** The payload of a request: the text [delete_assets] hands to
    [scripts.run] when it is called with the fields of the request. *)
Definition payload (r : DeletionRequest) : string :=
  Json.dumps
    (JDict (jsonData (repositoryName r) (pattern r) (is_wildcard (mode r))
              (dryRun r))).

(** Modelled from the spec: the documented schema of the payload (section
    6), [{repoName: string, assetRegex: string, isWildcard: bool, dryRun:
    bool}].  The script that reads the payload is not among the sources. *)
Record fields : Type := Fields {
  repoName : string;
  assetRegex : string;
  isWildcard : bool;
  dryRun_field : bool
}.

(** Modelled from the spec: the reading of a payload through that schema,
    a JSON object with the four keys and values of the documented types. *)
Definition decode (text : string) : option fields :=
  match Json.loads text with
  | Some (JDict d) =>
      match Py.dict_get d "repoName", Py.dict_get d "assetRegex",
            Py.dict_get d "isWildcard", Py.dict_get d "dryRun" with
      | Some (JStr r), Some (JStr p), Some (JBool w), Some (JBool dry) =>
          Some (Fields r p w dry)
      | _, _, _, _ => None
      end
  | _ => None
  end.



End Wire.

(** ** The collaborators of the unit test

    [tests/cli/test_delete.py] replaces [nexus.scripts.run] by a mock that
    returns a fixed response; the other methods of the mock client answer
    [None]. *)

Definition mock_scripts (response : json) : handler Collection.scriptsE unit :=
  λ X c w,
    match c in Collection.scriptsE X return result X * unit with
    | Collection.scripts_delete _ => (inr (), w)
    | Collection.scripts_create_if_missing _ _ => (inr (), w)
    | Collection.scripts_run _ _ => (inr response, w)
    end.

(** A client for the commands in the manner of that mock: the matcher
    answers [preview] to a dry run and [real] otherwise, the prompt returns
    its default, the path splits into a repository, a directory and a file,
    and everything written is accepted. *)
Definition mock_cli {M} (preview real : result json) : handler (Cli.cliE M) unit :=
  λ X c w,
    match c in Cli.cliE _ X return result X * unit with
    | Cli.repositories_delete_assets _ _ _ dryRun =>
        (if dryRun then preview else real, w)
    | Cli.split_component_path _ => (inr ("repo", Some "dir", Some "file"), w)
    | Cli.input_with_default _ default => (inr default, w)
    | Cli.print _ | Cli.stdout_write _ | Cli.stderr_write _ => (inr (), w)
    end.

(** In a trace: no confirmation prompt and no call of the matcher at all. *)
Definition only_writes {M} (t : list (entry (Cli.cliE M))) : Prop :=
  Forall (λ e, Cli.is_prompt e = false ∧
               Cli.is_delete_assets true e = false ∧
               Cli.is_delete_assets false e = false) t.

(** In a trace: no confirmation prompt and no real call of the matcher. *)
Definition no_prompt_no_delete {M} (t : list (entry (Cli.cliE M))) : Prop :=
  Forall (λ e, Cli.is_prompt e = false ∧
               Cli.is_delete_assets false e = false) t.

(** A run whose calls were [before] and then one written [report], and that
    returns [code] when the report was written. *)
Definition ends_with_report {M W} (before : list (entry (Cli.cliE M)))
    (report : Cli.cliE M unit) (code : Cli.CliReturnCode)
    (r : run (Cli.cliE M) W Cli.CliReturnCode) : Prop :=
  ∃ written : result unit,
    trace r = before ++ [Entry report written] ∧
    outcome r = (match written with
                 | inl e => inl e
                 | inr _ => inr code
                 end).

(** A run that starts with the real call of the matcher and goes on with
    writes only. *)
Definition deletes_at_once {M W} (repoName assetName : string) (m : M)
    (r : run (Cli.cliE M) W Cli.CliReturnCode) : Prop :=
  ∃ (answer : result json) (rest : list (entry (Cli.cliE M))),
    trace r =
      Entry (Cli.repositories_delete_assets repoName assetName m false) answer
      :: rest ∧
    only_writes rest.

(** Stand-ins for [inflect]'s plural and for [str()] in a mock run. *)
Definition mock_PLURAL : string → nat → string :=
  λ word count, if count =? 1 then word else word +:+ "s".
Definition mock_str : json → string := Json.dumps.

(** A service whose deletion script is an older one, with one asset stored,
    and a script engine that answers without touching the repositories. *)
Definition stale_service : Service.state (list string) :=
  Service.State {[ Collection.SCRIPT_NAME_DELETE_ASSETS := "// stale" ]}
    ["/r/a"].

Definition idle_engine : string → string → list string → result json * list string :=
  λ _ _ repos,
    (inr (JDict [("result", JStr (Json.dq "{'success':true,'assets':['/r/a']}"))]),
     repos).

(** A script body for the mock client; the mock never reads it. *)
Definition mock_groovy_script : string → string := λ _, "// groovy".

(** An invocation of [delete_assets] in which the three calls answer, the
    last one with [response]: the worlds in between, and the calls made. *)
Definition answers {W} (h : handler Collection.scriptsE W)
    (groovy_script : string → string) (reponame assetRegex : string)
    (isWildcard dryRun : bool) (w w1 w2 w3 : W) (response : json) : Prop :=
  h _ (Collection.scripts_delete Collection.SCRIPT_NAME_DELETE_ASSETS) w
  = (inr (), w1) ∧
  h _ (Collection.scripts_create_if_missing
         Collection.SCRIPT_NAME_DELETE_ASSETS
         (groovy_script Collection.SCRIPT_NAME_DELETE_ASSETS)) w1
  = (inr (), w2) ∧
  h _ (Collection.scripts_run Collection.SCRIPT_NAME_DELETE_ASSETS
         (Json.dumps
            (JDict (Collection.jsonData reponame assetRegex isWildcard dryRun))))
    w2
  = (inr response, w3).

Definition calls_made (groovy_script : string → string)
    (reponame assetRegex : string) (isWildcard dryRun : bool)
    (response : json) : list (entry Collection.scriptsE) :=
  [ Entry (Collection.scripts_delete Collection.SCRIPT_NAME_DELETE_ASSETS)
      (inr ());
    Entry (Collection.scripts_create_if_missing
             Collection.SCRIPT_NAME_DELETE_ASSETS
             (groovy_script Collection.SCRIPT_NAME_DELETE_ASSETS)) (inr ());
    Entry (Collection.scripts_run Collection.SCRIPT_NAME_DELETE_ASSETS
             (Json.dumps
                (JDict
                   (Collection.jsonData reponame assetRegex isWildcard dryRun))))
      (inr response) ].

(** [assets_list] as [delete_assets] returns it: [None] becomes [[]]. *)
Definition normalized (assets : json) : json :=
  if Py.eq_None assets then JList [] else assets.

(** The script reports a failure: the decoded dict has a [success] that
    equals [False]. *)
Definition reports_failure (script_result : list (string * json)) : bool :=
  match Py.dict_get script_result "success" with
  | Some success => Py.eq_False success
  | None => false
  end.

(** What lines 179-188 of [collection.py] make of a decoded dict. *)
Definition outcome_of (response : json) (script_result : list (string * json))
  : result json :=
  match Py.dict_get script_result "assets" with
  | None => inl (NexusClientAPIError response)
  | Some assets =>
      if reports_failure script_result then
        match Py.dict_get script_result "error" with
        | Some error => inl (NexusClientAPIError error)
        | None => inl (KeyError "error")
        end
      else inr (normalized assets)
  end.

(** A text that starts a value: no whitespace in front, and [pv] reads the
    value [v] off it. *)
Definition reads (pv : string → option (json * string)) (vtext : string)
    (v : json) : Prop :=
  ∀ tail, Json.skip_ws (vtext +:+ tail) = vtext +:+ tail ∧
          pv (vtext +:+ tail) = Some (v, tail).

(** ** The other methods of [collection.py] and the other commands

    Besides the exceptions of [exn], these raise the ones below; such an
    exception is the left value of an [attempt]. *)

Inductive raised : Type :=
| Builtin (e : exn)
| IndexError
| AttributeError
| NotImplementedError (class_name : string) (raw_repo : json)
| NexusClientInvalidRepository (name : string)
| NexusClientCreateRepositoryError (resp : json)
| SystemExit (code : Cli.CliReturnCode).

Definition attempt (A : Type) : Type := (raised + A)%type.

#[global] Instance attempt_ret : MRet attempt := λ A a, inr a.
#[global] Instance attempt_bind : MBind attempt :=
  λ A B f m, match m with inl e => inl e | inr a => f a end.

(** An expression of the built-ins, inside an attempt. *)
Definition builtin {A} (r : result A) : attempt A :=
  match r with
  | inl e => inl (Builtin e)
  | inr a => inr a
  end.

Module Repositories.
Import Collection.

(** The items a [for] loop draws from a value: the elements of a list, the
    keys of a dict, the characters of a str; the other values are not
    iterable. *)
Definition iter (v : json) : result (list json) :=
  match v with
  | JList l => inr l
  | JDict d => inr (JStr <$> (fst <$> d))
  | JStr s => inr (JStr <$> Py.chars s)
  | JNull | JBool _ | JInt _ => inl TypeError
  end.

(** [v.title()]: a method of str only. *)
Definition title_of (title : string → string) (v : json) : attempt string :=
  match v with
  | JStr s => inr (title s)
  | _ => inl AttributeError
  end.

(** [v.get(k)]: a method of dict only; [None] for a missing key. *)
Definition get (v : json) (k : string) : attempt json :=
  match v with
  | JDict d => inr (default JNull (Py.dict_get d k))
  | _ => inl AttributeError
  end.

(** [raw_repo_to_recipe(raw_repo)]. *)
Definition raw_repo_to_recipe (raw_repo : json) : attempt json :=
  recipe ← builtin (Py.getitem raw_repo "format");
  if Py.is_str "maven2" recipe then inr (JStr "maven") else inr recipe.

Section Model.

(** [nexuscli/api/repository/model] is not among the sources.  Its classes
    [model.__all__], the [__name__] and the [RECIPES] of a class and the
    [RECIPES] of [model.Repository] (sequences of strs) are taken as given,
    and so is [str.title]. *)
Context {C : Type}.
Variable model_all : list C.
Variable name_of : C → string.
Variable recipes_of : C → list string.
Variable Repository_RECIPES : list string.
Variable title : string → string.

(** [raw_repo_to_class_name(raw_repo)]. *)
Definition raw_repo_to_class_name (raw_repo : json) : attempt string :=
  recipe ← raw_repo_to_recipe raw_repo;
  let class_name := "" in
  class_name ←
    (if negb (existsb (λ r, Py.is_str r recipe) Repository_RECIPES) then
       t ← title_of title recipe; inr (class_name +:+ t)
     else inr class_name);
  type ← builtin (Py.getitem raw_repo "type");
  t ← title_of title type;
  let class_name := class_name +:+ t in
  let class_name := class_name +:+ "Repository" in
  inr class_name.

(** [get_repository_class(raw_repo)]. *)
Definition get_repository_class (raw_repo : json) : attempt C :=
  class_name ← raw_repo_to_class_name raw_repo;
  match find (λ class_, String.eqb (name_of class_) class_name) model_all with
  | Some class_ => inr class_
  | None => inl (NotImplementedError class_name raw_repo)
  end.

(** [raw_repo_to_args_kwargs(raw_repo)]: the tuple [args] as a list. *)
Definition raw_repo_to_args_kwargs (raw_repo : json)
  : attempt (list json * list (string * json)) :=
  name ← builtin (Py.getitem raw_repo "name");
  let args := [name] in
  recipe ← raw_repo_to_recipe raw_repo;
  let kwargs := Py.dict_set [] "recipe" recipe in
  type ← builtin (Py.getitem raw_repo "type");
  kwargs ←
    (if Py.is_str "proxy" type then
       url ← builtin (Py.getitem raw_repo "url");
       inr (Py.dict_set kwargs "remote_url" url)
     else inr kwargs);
  inr (args, kwargs).

(** The state of a [RepositoryCollection]; [self._client] is what answers
    the calls. *)
Record RepositoryCollection : Type := Self {
  _repositories_json : json
}.

(** [RepositoryCollection(client)]. *)
Definition __init__ : RepositoryCollection :=
  {| _repositories_json := JNull |}.

(** The loop of [get_raw_by_name] over the items left. *)
Fixpoint get_raw_by_name_loop (name : string) (items : list json)
  : attempt json :=
  match items with
  | [] => inl IndexError
  | r :: items' =>
      n ← builtin (Py.getitem r "name");
      if Py.is_str name n then inr r else get_raw_by_name_loop name items'
  end.

(** An item the loop passes: it has a [name], which is not [name]. *)
Definition named_otherwise (name : string) (x : json) : Prop :=
  ∃ n, Py.getitem x "name" = inr n ∧ n ≠ JStr name.

(** [self.get_raw_by_name(name)]. *)
Definition get_raw_by_name (self : RepositoryCollection) (name : string)
  : attempt json :=
  items ← builtin (iter (_repositories_json self));
  get_raw_by_name_loop name items.

(** The call of the class [Repository], with [args], the client and
    [kwargs], that [get_by_name] ends with: the class and the arguments.
    What the constructor does with them is outside the sources. *)
Record instantiation : Type := Instantiate {
  class_called : C;
  args_given : list json;
  kwargs_given : list (string * json)
}.

(** [self.get_by_name(name)]. *)
Definition get_by_name (self : RepositoryCollection) (name : string)
  : attempt instantiation :=
  raw_repo ←
    match get_raw_by_name self name with
    | inl IndexError => inl (NexusClientInvalidRepository name)
    | other => other
    end;
  Repository ← get_repository_class raw_repo;
  '(args, kwargs) ← raw_repo_to_args_kwargs raw_repo;
  inr (Instantiate Repository args kwargs).

(** [_args_to_repo_type(args)] of [subcommand_repository.py]; [None] when
    the loop finds nothing. *)
Definition is_True (args : list (string * json)) (k : string) : bool :=
  match Py.dict_get args k with
  | Some (JBool true) => true
  | _ => false
  end.

Definition _args_to_repo_type (args : list (string * json)) : option string :=
  find (is_True args) ["hosted"; "proxy"; "group"].

(** [_args_to_recipe_name(args)] of [subcommand_repository.py]: the loop
    over the classes, with the loop over the recipes of a class inside. *)
Fixpoint _args_to_recipe_name_loop (args : list (string * json))
    (classes : list C) : option string :=
  match classes with
  | [] => None
  | class_ :: classes' =>
      match find (is_True args) (recipes_of class_) with
      | Some recipe_name => Some recipe_name
      | None => _args_to_recipe_name_loop args classes'
      end
  end.

Definition _args_to_recipe_name (args : list (string * json)) : option string :=
  _args_to_recipe_name_loop args model_all.

End Model.

(** What [self._client.http_get] answers: the status, the raw content and
    what [response.json()] gives. *)
Record response : Type := Response {
  status_code : Z;
  content : string;
  json_body : result json
}.

Inductive httpE : Type → Type :=
| http_get (path : string) : httpE response.

(** [self.refresh()]: the collection afterwards. *)
Definition refresh (self : RepositoryCollection)
  : prog httpE RepositoryCollection :=
  response ← call (http_get "repositories");
  if negb (status_code response =? 200)%Z then
    Raise (NexusClientAPIError (JStr (content response)))
  else
    body ← lift (json_body response);
    Ret {| _repositories_json := body |}.

(** [self.raw_list()]: the collection afterwards, and the value returned. *)
Definition raw_list (self : RepositoryCollection)
  : prog httpE (RepositoryCollection * json) :=
  self ← refresh self;
  Ret (self, _repositories_json self).

Section Scripts.

Variable groovy_script : string → string.

(** [self.delete(name)]. *)
Definition delete (name : string) : prog scriptsE unit :=
  let content := groovy_script SCRIPT_NAME_DELETE in
  call (scripts_create_if_missing SCRIPT_NAME_DELETE content);;
  call (scripts_run SCRIPT_NAME_DELETE name);;
  Ret ().

(** The argument of [create]: whether its type is a subclass of
    [model.Repository], and its [configuration]. *)
Record repository_argument : Type := RepositoryArgument {
  is_Repository : bool;
  configuration : json
}.

(** [self.create(repository)]. *)
Definition create (repository : repository_argument)
  : prog scriptsE (attempt unit) :=
  if negb (is_Repository repository) then Raise TypeError
  else
    let content := groovy_script SCRIPT_NAME_CREATE in
    call (scripts_create_if_missing SCRIPT_NAME_CREATE content);;
    let script_args := Json.dumps (configuration repository) in
    resp ← call (scripts_run SCRIPT_NAME_CREATE script_args);
    Ret (result ← get resp "result";
         if negb (Py.is_str "null" result)
         then inl (NexusClientCreateRepositoryError resp)
         else inr ()).

End Scripts.

End Repositories.

(** ** The other commands of [subcommand_repository.py] *)

Module SubcommandMore.
Import Cli.

(** The calls of [cmd_delete]: [util.input_with_default] and
    [nexus_client.repositories.delete]. *)
Inductive repoE : Type → Type :=
| input_with_default (prompt default : string) : repoE string
| repositories_delete (name : string) : repoE unit.

Record args : Type := Args {
  repo_name : string;
  force : bool
}.

(** [cmd_delete(nexus_client, args)]. *)
Definition cmd_delete (a : args) : prog repoE CliReturnCode :=
  (if negb (force a) then
     call (input_with_default "Press ENTER to confirm deletion"
                              "ctrl+c to cancel");;
     Ret ()
   else Ret ());;
  call (repositories_delete (repo_name a));;
  Ret SUCCESS.

End SubcommandMore.

(** ** The other commands of [root_commands.py] *)

Module RootMore.
Import Cli.

(** [c.lower()] for the characters modelled: the letters [A-Z], [À-Ö] and
    [Ø-Þ] move 32 code points up. *)
Definition lower_char (c : ascii) : ascii :=
  let n := nat_of_ascii c in
  if (65 <=? n) && (n <=? 90) || (192 <=? n) && (n <=? 214)
     || (216 <=? n) && (n <=? 222)
  then ascii_of_nat (n + 32)
  else c.

Fixpoint lower (s : string) : string :=
  match s with
  | EmptyString => EmptyString
  | String c s' => String (lower_char c) (lower s')
  end.

Definition YESNO_OPTIONS : list (string * bool) :=
  [ ("true", true); ("t", true); ("yes", true); ("y", true);
    ("false", false); ("f", false); ("no", false); ("n", false) ].

(** [d[k]] for a dict of strs and bools. *)
Fixpoint option_of (d : list (string * bool)) (k : string) : result bool :=
  match d with
  | [] => inl (KeyError k)
  | (k', b) :: d' => if String.eqb k' k then inr b else option_of d' k
  end.

(** The calls of the commands: [util.input_with_default] with a default
    that is a bool, [nexus_client.upload], [nexus_client.download] and
    [sys.stderr.write]. *)
Inductive rootE : Type → Type :=
| input_with_default (prompt : string) (default : bool) : rootE string
| nexus_upload (source destination : string) (flatten recurse : bool) : rootE Z
| nexus_download (source destination : string) (flatten nocache : bool)
    : rootE Z
| stderr_write (s : string) : rootE unit.

(** [_input_yesno(prompt, default)]. *)
Definition _input_yesno (prompt : string) (default : bool) : prog rootE bool :=
  try_except
    (answer ← call (input_with_default prompt default);
     lift (option_of YESNO_OPTIONS (lower answer)))
    (λ e,
       match e with
       | KeyError _ => Some (Ret default)
       | _ => None
       end).

(** [_cmd_up_down_errors(count, action)]; [sys.exit(code)] raises
    [SystemExit]. *)
Definition _cmd_up_down_errors (count : Z) (action : string)
  : prog rootE (attempt unit) :=
  if (count =? 0)%Z then
    call (stderr_write ("WARNING: no files were " +:+ action +:+ "'ed."));;
    Ret (inl (SystemExit NO_FILES))
  else if (count =? -1)%Z then
    call (stderr_write ("ERROR during " +:+ action +:+ " operation."));;
    Ret (inl (SystemExit API_ERROR))
  else Ret (inr ()).

Section Transfer.

(** [inflect.engine().plural], for any count. *)
Variable PLURAL : string → Z → string.

Record upload_args : Type := UploadArgs {
  from_src : string;
  to_repository : string;
  upload_flatten : bool;
  norecurse : bool
}.

(** [cmd_upload(nexus_client, args)]. *)
Definition cmd_upload (a : upload_args) : prog rootE (attempt CliReturnCode) :=
  let source := from_src a in
  let destination := to_repository a in
  call (stderr_write ("Uploading " +:+ source +:+ " to " +:+ destination
                      +:+ nl));;
  upload_count ←
    call (nexus_upload source destination (upload_flatten a)
            (negb (norecurse a)));
  checked ← _cmd_up_down_errors upload_count "upload";
  match checked with
  | inl e => Ret (inl e)
  | inr _ =>
      let file := PLURAL "file" upload_count in
      call (stderr_write ("Uploaded " +:+ Py.str_of_int upload_count +:+ " "
                          +:+ file +:+ " to " +:+ destination +:+ nl));;
      Ret (inr SUCCESS)
  end.

Record download_args : Type := DownloadArgs {
  from_repository : string;
  to_dst : string;
  download_flatten : bool;
  nocache : bool
}.

(** [cmd_download(nexus_client, args)]. *)
Definition cmd_download (a : download_args)
  : prog rootE (attempt CliReturnCode) :=
  let source := from_repository a in
  let destination := to_dst a in
  call (stderr_write ("Downloading " +:+ source +:+ " to " +:+ destination
                      +:+ nl));;
  download_count ←
    call (nexus_download source destination (download_flatten a) (nocache a));
  checked ← _cmd_up_down_errors download_count "download";
  match checked with
  | inl e => Ret (inl e)
  | inr _ =>
      let file_word := PLURAL "file" download_count in
      call (stderr_write ("Downloaded " +:+ Py.str_of_int download_count
                          +:+ " " +:+ file_word +:+ " to " +:+ destination
                          +:+ nl));;
      Ret (inr SUCCESS)
  end.

End Transfer.

End RootMore.

(** ** The calls of the matcher in a run *)

(** The arguments of a call of [repositories.delete_assets], when the entry
    is one: repository, pattern, mode and [dryRun]. *)
Definition matcher_call {M} (e : entry (Cli.cliE M))
  : option (string * string * M * bool) :=
  match entry_call e with
  | Cli.repositories_delete_assets repoName assetName m dryRun =>
      Some (repoName, assetName, m, dryRun)
  | _ => None
  end.

(** The calls of the matcher in a trace, in order. *)
Fixpoint matcher_calls {M} (t : list (entry (Cli.cliE M)))
  : list (string * string * M * bool) :=
  match t with
  | [] => []
  | e :: t' =>
      match matcher_call e with
      | Some c => c :: matcher_calls t'
      | None => matcher_calls t'
      end
  end.

(** The prompt of the deletion commands. *)
Definition confirmation {M} : Cli.cliE M string :=
  Cli.input_with_default "Press ENTER to confirm deletion" "ctrl+c to cancel".

(** A run in which the real call of the matcher comes fifth: after the
    announcement, a preview that found at least one asset, the report of
    what it found and an answered prompt; only writes follow. *)
Definition confirmed_delete {M W} (announce : Cli.cliE M unit)
    (repoName assetName : string) (m : M)
    (r : run (Cli.cliE M) W Cli.CliReturnCode) : Prop :=
  ∃ (assets : json) (n : nat) (found : Cli.cliE M unit) (answer : string)
    (deleted : result json) (rest : list (entry (Cli.cliE M))),
    trace r =
      [ Entry announce (inr ());
        Entry (Cli.repositories_delete_assets repoName assetName m true)
          (inr assets);
        Entry found (inr ());
        Entry confirmation (inr answer);
        Entry (Cli.repositories_delete_assets repoName assetName m false)
          deleted ] ++ rest ∧
    Py.len assets = inr (S n) ∧
    only_writes (Entry found (inr ()) :: rest).

(** ** Stand-ins for the runs of the other functions *)

(** A model whose classes are their names, with [str.title] on the two
    words a lookup meets, and a listing of two hosted repositories. *)
Definition mock_model_all : list string :=
  ["HostedRepository"; "ProxyRepository"].

Definition mock_title : string → string :=
  λ s, if String.eqb s "hosted" then "Hosted"
       else if String.eqb s "proxy" then "Proxy"
       else s.

Definition mock_listing : json :=
  JList [ JDict [("name", JStr "snapshots"); ("format", JStr "raw");
                 ("type", JStr "hosted")];
          JDict [("name", JStr "releases"); ("format", JStr "raw");
                 ("type", JStr "hosted")] ].

(** A client for [cmd_upload] and [cmd_download]: a transfer answers
    [count], the prompt answers [y] and everything written is accepted. *)
Definition mock_root (count : Z) : handler RootMore.rootE unit :=
  λ X c w,
    match c in RootMore.rootE X return result X * unit with
    | RootMore.input_with_default _ _ => (inr "y", w)
    | RootMore.nexus_upload _ _ _ _ => (inr count, w)
    | RootMore.nexus_download _ _ _ _ => (inr count, w)
    | RootMore.stderr_write _ => (inr (), w)
    end.

(** * Properties *)

#[local] Arguments String.append !_ _ : simpl nomatch.

(** ** Running a program *)

Section Exec.
Context {E : Type → Type} {W : Type} (h : handler E W).

Lemma exec_call_bind {X A} (c : E X) (f : X → prog E A) (w : W) :
  exec h (call c ≫= f) w =
  match h _ c w with
  | (inl e, w') => Run (inl e) w' [Entry c (inl e)]
  | (inr x, w') => after (Entry c (inr x)) (exec h (f x) w')
  end.
Proof.
  unfold mbind, prog_bind, call. cbn [exec bind].
  destruct (h X c w) as [[e|x] w']; reflexivity.
Qed.

Lemma exec_call_bind_bind {X A B} (c : E X) (f : X → prog E A)
    (k : A → prog E B) (w : W) :
  exec h ((call c ≫= f) ≫= k) w =
  match h _ c w with
  | (inl e, w') => Run (inl e) w' [Entry c (inl e)]
  | (inr x, w') => after (Entry c (inr x)) (exec h (f x ≫= k) w')
  end.
Proof.
  unfold mbind, prog_bind, call. cbn [exec bind].
  destruct (h X c w) as [[e|x] w']; reflexivity.
Qed.

Lemma exec_lift_bind {A B} (r : result A) (f : A → prog E B) (w : W) :
  exec h (lift r ≫= f) w =
  match r with
  | inl e => Run (inl e) w []
  | inr a => exec h (f a) w
  end.
Proof. destruct r; reflexivity. Qed.

Lemma exec_lift_bind_bind {A B C} (r : result A) (f : A → prog E B)
    (k : B → prog E C) (w : W) :
  exec h ((lift r ≫= f) ≫= k) w =
  match r with
  | inl e => Run (inl e) w []
  | inr a => exec h (f a ≫= k) w
  end.
Proof. destruct r; reflexivity. Qed.

Lemma exec_try_call {X A B} (c : E X) (f : X → prog E A)
    (hd : exn → option (prog E A)) (k : A → prog E B) (w : W) :
  exec h (try_except (call c ≫= f) hd ≫= k) w =
  match h _ c w with
  | (inl e, w') =>
      after (Entry c (inl e))
        (exec h ((if hd e is Some handled then handled else Raise e) ≫= k) w')
  | (inr x, w') =>
      after (Entry c (inr x)) (exec h (try_except (f x) hd ≫= k) w')
  end.
Proof.
  unfold mbind, prog_bind, call. cbn [exec bind try_except].
  destruct (h X c w) as [[e|x] w']; reflexivity.
Qed.

End Exec.

(** ** The codec: a payload is decoded to what was encoded *)

Section Codec.
Import Json.

Lemma hex_value_digit k : k < 16 → hex_value (hex_digit k) = Some k.
Proof.
  intros Hk. do 16 (destruct k as [|k]; [reflexivity|]). lia.
Qed.

Lemma hex4_byte n :
  n < 256 →
  hex4 "0" "0" (hex_digit (n / 16)) (hex_digit (n mod 16)) = Some n.
Proof.
  intros Hn. unfold hex4.
  pose proof (Nat.div_mod_eq n 16) as Hdm.
  pose proof (Nat.mod_upper_bound n 16 ltac:(lia)) as Hm.
  rewrite (hex_value_digit (n / 16)) by lia.
  rewrite (hex_value_digit (n mod 16)) by lia.
  change (hex_value "0") with (Some 0).
  cbn [mbind option_bind]. f_equal. lia.
Qed.

Lemma of_code c n : nat_of_ascii c = n → c = ascii_of_nat n.
Proof. intros <-. symmetry. apply ascii_nat_embedding. Qed.

Ltac decide_tests :=
  repeat
    (match goal with
     | |- context [Ascii.eqb ?a ?b] =>
         let v := eval vm_compute in (Ascii.eqb a b) in
         first [constr_eq v true | constr_eq v false];
         change (Ascii.eqb a b) with v
     | |- context [unescape ?e] =>
         let v := eval vm_compute in (unescape e) in
         lazymatch v with Some _ => idtac | None => idtac end;
         change (unescape e) with v
     | |- context [is_ws ?e] =>
         let v := eval vm_compute in (is_ws e) in
         first [constr_eq v true | constr_eq v false];
         change (is_ws e) with v
     end; cbv iota; cbn [mbind option_bind]).

Lemma scanstring_escape_char c tail x rest :
  scanstring tail = Some (x, rest) →
  scanstring (escape_char c +:+ tail) = Some (String c x, rest).
Proof.
  intros H. unfold escape_char.
  destruct (Ascii.eqb c dquote) eqn:E1.
  { apply Ascii.eqb_eq in E1. subst c.
    cbn [String.append scanstring]. decide_tests. rewrite H. reflexivity. }
  destruct (Ascii.eqb c backslash) eqn:E2.
  { apply Ascii.eqb_eq in E2. subst c.
    cbn [String.append scanstring]. decide_tests. rewrite H. reflexivity. }
  destruct (nat_of_ascii c =? 10) eqn:E3.
  { apply Nat.eqb_eq, of_code in E3. subst c.
    cbn [String.append scanstring]. decide_tests. rewrite H. reflexivity. }
  destruct (nat_of_ascii c =? 13) eqn:E4.
  { apply Nat.eqb_eq, of_code in E4. subst c.
    cbn [String.append scanstring]. decide_tests. rewrite H. reflexivity. }
  destruct (nat_of_ascii c =? 9) eqn:E5.
  { apply Nat.eqb_eq, of_code in E5. subst c.
    cbn [String.append scanstring]. decide_tests. rewrite H. reflexivity. }
  destruct (nat_of_ascii c =? 8) eqn:E6.
  { apply Nat.eqb_eq, of_code in E6. subst c.
    cbn [String.append scanstring]. decide_tests. rewrite H. reflexivity. }
  destruct (nat_of_ascii c =? 12) eqn:E7.
  { apply Nat.eqb_eq, of_code in E7. subst c.
    cbn [String.append scanstring]. decide_tests. rewrite H. reflexivity. }
  destruct ((nat_of_ascii c <? 32) || (126 <? nat_of_ascii c)) eqn:E8.
  - cbn [String.append scanstring]. decide_tests.
    rewrite hex4_byte by apply nat_ascii_bounded. cbn [mbind option_bind].
    pose proof (nat_ascii_bounded c) as Hc.
    apply Nat.ltb_lt in Hc. rewrite Hc, H. cbn [mbind option_bind].
    rewrite ascii_nat_embedding. reflexivity.
  - apply orb_false_iff in E8 as [E8 _].
    cbn [String.append scanstring]. rewrite E1, E2, E8, H. reflexivity.
Qed.

Lemma append_assoc (a b c : string) : (a +:+ b) +:+ c = a +:+ (b +:+ c).
Proof. induction a as [|x a IH]; cbn; [reflexivity|]. rewrite IH. reflexivity. Qed.

Lemma scanstring_escape s rest :
  scanstring (escape s +:+ String dquote rest) = Some (s, rest).
Proof.
  induction s as [|c s IH]; cbn [escape].
  - reflexivity.
  - rewrite append_assoc. apply scanstring_escape_char, IH.
Qed.

Lemma jsonData_items a b c d :
  Collection.jsonData a b c d =
  [("repoName", JStr a); ("assetRegex", JStr b); ("isWildcard", JBool c);
   ("dryRun", JBool d)].
Proof. reflexivity. Qed.

Lemma quote_append s rest :
  quote s +:+ rest = String dquote (escape s +:+ String dquote rest).
Proof. unfold quote. cbn [String.append]. rewrite append_assoc. reflexivity. Qed.

Ltac crunch :=
  repeat (progress (cbn [scan_members scan_once skip_ws strip_prefix
                         String.append mbind option_bind];
                    decide_tests)).

Lemma length_append (s t : string) :
  String.length (s +:+ t) = String.length s + String.length t.
Proof. induction s as [|x s IH]; cbn; [reflexivity|]. rewrite IH. reflexivity. Qed.

Lemma reads_string n s : reads (scan_once (S n)) (quote s) (JStr s).
Proof.
  intros tail. rewrite quote_append. split.
  - cbn [skip_ws]. decide_tests. reflexivity.
  - cbn [scan_once]. decide_tests. rewrite scanstring_escape. reflexivity.
Qed.

Lemma reads_bool n b : reads (scan_once (S n)) (dumps (JBool b)) (JBool b).
Proof.
  intros tail. destruct b; cbn [dumps String.append]; split.
  - cbn [skip_ws]. decide_tests. reflexivity.
  - cbn [scan_once]. decide_tests. cbn [strip_prefix]. decide_tests. reflexivity.
  - cbn [skip_ws]. decide_tests. reflexivity.
  - cbn [scan_once]. decide_tests. cbn [strip_prefix]. decide_tests. reflexivity.
Qed.

Lemma scan_members_more pv n acc k vtext v rest :
  reads pv vtext v →
  scan_members pv (S n) acc (quote k +:+ ": " +:+ vtext +:+ ", " +:+ rest)
  = scan_members pv n (Py.dict_set acc k v) (" " +:+ rest).
Proof.
  intros Hv. rewrite quote_append. crunch.
  rewrite scanstring_escape. crunch.
  destruct (Hv (String "," (String " " rest))) as [-> ->].
  crunch. reflexivity.
Qed.

Lemma scan_members_last pv n acc k vtext v :
  reads pv vtext v →
  scan_members pv (S n) acc (quote k +:+ ": " +:+ vtext +:+ "}")
  = Some (JDict (Py.dict_set acc k v), "").
Proof.
  intros Hv. rewrite quote_append. crunch.
  rewrite scanstring_escape. crunch.
  destruct (Hv "}") as [-> ->].
  crunch. reflexivity.
Qed.

Lemma scan_members_space pv n acc k rest :
  scan_members pv n acc (" " +:+ quote k +:+ rest)
  = scan_members pv n acc (quote k +:+ rest).
Proof.
  destruct n as [|n]; [reflexivity|].
  cbn [scan_members String.append skip_ws]. decide_tests.
  rewrite quote_append. cbn [skip_ws]. decide_tests. reflexivity.
Qed.

Lemma scan_once_dict n k rest :
  scan_once (S n) ("{" +:+ quote k +:+ rest)
  = scan_members (scan_once n) n [] (quote k +:+ rest).
Proof.
  rewrite quote_append. cbn [String.append scan_once skip_ws]. decide_tests.
  reflexivity.
Qed.

Lemma loads_dumps_jsonData a b c d :
  Json.loads (Json.dumps (JDict (Collection.jsonData a b c d)))
  = Some (JDict (Collection.jsonData a b c d)).
Proof.
  rewrite jsonData_items.
  change (dumps (JDict [("repoName", JStr a); ("assetRegex", JStr b);
                        ("isWildcard", JBool c); ("dryRun", JBool d)]))
    with ("{" +:+
          (quote "repoName" +:+ ": " +:+ quote a +:+ ", " +:+
           quote "assetRegex" +:+ ": " +:+ quote b +:+ ", " +:+
           quote "isWildcard" +:+ ": " +:+ dumps (JBool c) +:+ ", " +:+
           quote "dryRun" +:+ ": " +:+ dumps (JBool d)) +:+ "}").
  rewrite !append_assoc.
  unfold loads.
  match goal with |- context [String.length ?t] =>
    assert (Hlen : 5 ≤ String.length t)
      by (rewrite !length_append; unfold quote; cbn [String.length]; lia);
    destruct (String.length t) as [|[|[|[|[|m]]]]]; try lia
  end.
  replace (skip_ws ("{" +:+ quote "repoName" +:+ ": " +:+ quote a +:+ ", " +:+
           quote "assetRegex" +:+ ": " +:+ quote b +:+ ", " +:+
           quote "isWildcard" +:+ ": " +:+ dumps (JBool c) +:+ ", " +:+
           quote "dryRun" +:+ ": " +:+ dumps (JBool d) +:+ "}"))
    with ("{" +:+ quote "repoName" +:+ ": " +:+ quote a +:+ ", " +:+
           quote "assetRegex" +:+ ": " +:+ quote b +:+ ", " +:+
           quote "isWildcard" +:+ ": " +:+ dumps (JBool c) +:+ ", " +:+
           quote "dryRun" +:+ ": " +:+ dumps (JBool d) +:+ "}")
    by (cbn [String.append skip_ws]; decide_tests; reflexivity).
  rewrite scan_once_dict.
  rewrite (scan_members_more _ _ _ _ _ _ _ (reads_string _ a)).
  rewrite scan_members_space.
  rewrite (scan_members_more _ _ _ _ _ _ _ (reads_string _ b)).
  rewrite scan_members_space.
  rewrite (scan_members_more _ _ _ _ _ _ _ (reads_bool _ c)).
  rewrite scan_members_space.
  rewrite (scan_members_last _ _ _ _ _ _ (reads_bool _ d)).
  reflexivity.
Qed.

End Codec.

(** ** [delete_assets]: what becomes of the script's response *)

Section DeleteAssetsFacts.
Import Collection.

Variable groovy_script : string → string.
Context {W : Type} (h : handler scriptsE W).
Variables (reponame assetRegex : string) (isWildcard dryRun : bool).
Variables (w w1 w2 w3 : W) (response : json).

Local Abbreviation invocation :=
  (exec h (delete_assets groovy_script reponame assetRegex isWildcard dryRun) w).
Local Abbreviation answered :=
  (answers h groovy_script reponame assetRegex isWildcard dryRun w w1 w2 w3
     response).
Local Abbreviation calls :=
  (calls_made groovy_script reponame assetRegex isWildcard dryRun response).

Ltac three_calls H :=
  destruct H as (Hdelete & Hcreate & Hrun);
  unfold delete_assets; cbv zeta;
  rewrite exec_call_bind, Hdelete; cbv beta iota zeta;
  rewrite exec_call_bind, Hcreate; cbv beta iota zeta;
  rewrite exec_call_bind, Hrun; cbv beta iota zeta.

Lemma delete_assets_no_result :
  answered →
  Py.contains "result" response = inr false →
  invocation = Run (inl (NexusClientAPIError response)) w3 calls.
Proof.
  intros H Hno. three_calls H.
  rewrite exec_lift_bind, Hno. reflexivity.
Qed.

Lemma delete_assets_dict d text script_result :
  answered →
  response = JDict d →
  Py.dict_get d "result" = Some (JStr text) →
  Json.loads text = Some (JDict script_result) →
  invocation = Run (outcome_of response script_result) w3 calls.
Proof.
  intros H Hd Hget Hloads. three_calls H. subst response.
  rewrite exec_lift_bind. cbn [Py.contains]. rewrite Hget. cbn [negb]. cbv iota.
  rewrite exec_lift_bind. cbn [Py.getitem]. rewrite Hget.
  rewrite exec_lift_bind. cbn [json_loads]. rewrite Hloads.
  unfold outcome_of, reports_failure.
  cbn [Py.eq_None Py.contains Py.getitem].
  destruct (Py.dict_get script_result "assets") as [assets|]; [|reflexivity].
  destruct (Py.dict_get script_result "success") as [success|].
  - cbn. destruct (Py.eq_False success).
    + destruct (Py.dict_get script_result "error"); reflexivity.
    + unfold normalized. destruct (Py.eq_None assets); reflexivity.
  - cbn. unfold normalized. destruct (Py.eq_None assets); reflexivity.
Qed.

(** C1.  Whenever the script answers with a dict whose [result] is the text
    [{"success":true,"error":"","assets":["/r/a"]}], [delete_assets] returns
    the list [["/r/a"]], after exactly the three calls of an invocation. *)
Theorem delete_assets_returns_the_listed_asset d :
  answered →
  response = JDict d →
  Py.dict_get d "result"
  = Some (JStr (Json.dq "{'success':true,'error':'','assets':['/r/a']}")) →
  invocation = Run (inr (JList [JStr "/r/a"])) w3 calls.
Proof.
  intros H Hd Hget.
  rewrite (delete_assets_dict d _
             [("success", JBool true); ("error", JStr "");
              ("assets", JList [JStr "/r/a"])] H Hd Hget).
  - reflexivity.
  - vm_compute. reflexivity.
Qed.

(** C2.  Whenever the script answers with a dict that has no [result] key,
    [delete_assets] raises [NexusClientAPIError] with the raw response; it
    returns nothing, and no empty list in particular. *)
Theorem delete_assets_requires_result d :
  answered →
  response = JDict d →
  Py.dict_get d "result" = None →
  invocation = Run (inl (NexusClientAPIError response)) w3 calls ∧
  ∀ v, outcome invocation ≠ inr v.
Proof.
  intros H Hd Hget.
  assert (Hrun : invocation = Run (inl (NexusClientAPIError response)) w3 calls).
  { apply delete_assets_no_result; [exact H|].
    subst response. cbn [Py.contains]. rewrite Hget. reflexivity. }
  split; [exact Hrun|]. intros v. rewrite Hrun. discriminate.
Qed.




End DeleteAssetsFacts.

(** The response of [tests/cli/test_delete.py], with the asset of the spec. *)
Lemma delete_assets_returns_the_listed_asset_witness :
  let response :=
    JDict [("name", JStr "nexus3-cli-repository-delete-assets");
           ("result",
            JStr (Json.dq "{'success':true,'error':'','assets':['/r/a']}"))] in
  exec (mock_scripts response)
    (Collection.delete_assets mock_groovy_script "repo" "a" false false) ()
  = Run (inr (JList [JStr "/r/a"])) ()
      (calls_made mock_groovy_script "repo" "a" false false response).
Proof.
  intros response.
  apply (delete_assets_returns_the_listed_asset mock_groovy_script
           (mock_scripts response) "repo" "a" false false () () () () response
           [("name", JStr "nexus3-cli-repository-delete-assets");
            ("result",
             JStr (Json.dq "{'success':true,'error':'','assets':['/r/a']}"))]).
  - repeat split.
  - reflexivity.
  - reflexivity.
Defined.

(** A response with a [name] and no [result]. *)
Lemma delete_assets_requires_result_witness :
  let response := JDict [("name", JStr "nexus3-cli-repository-delete-assets")] in
  let r :=
    exec (mock_scripts response)
      (Collection.delete_assets mock_groovy_script "repo" "a" false false) () in
  r = Run (inl (NexusClientAPIError response)) ()
        (calls_made mock_groovy_script "repo" "a" false false response) ∧
  ∀ v, outcome r ≠ inr v.
Proof.
  intros response r.
  apply (delete_assets_requires_result mock_groovy_script
           (mock_scripts response) "repo" "a" false false () () () () response
           [("name", JStr "nexus3-cli-repository-delete-assets")]).
  - repeat split.
  - reflexivity.
  - reflexivity.
Defined.






(** ** The deletion workflow *)

(** Runs a command call after call, with a case for every answer. *)
Ltac run_cases h :=
  repeat first
    [ rewrite exec_call_bind
    | rewrite exec_lift_bind
    | rewrite exec_try_call
    | match goal with
      | |- context [h ?X ?c ?w] => destruct (h X c w) as [[?|?] ?]
      | |- context [Py.len ?a] => destruct (Py.len a)
      | |- context [Py.join ?s ?a] => destruct (Py.join s a)
      | |- context [Nat.eqb ?n 0] => destruct (Nat.eqb n 0)
      end
    | progress cbn [after trace outcome world] ].

Section Workflow.
Import Cli.

Variable PLURAL : string → nat → string.
Variable py_str : json → string.
Context {W : Type}.
Variable hs : handler (cliE bool) W.
Variable hr : handler (cliE Collection.AssetMatchOptions) W.
Variables (repoName assetName : string).
Variables (isWildcard : bool) (assetMatchOption : Collection.AssetMatchOptions).

Local Abbreviation retrieving_s :=
  (stdout_write ("Retrieving assets matching " +:+ assetName +:+ nl)).
Local Abbreviation retrieving_r :=
  (print ("Retrieving assets matching " +:+
          Collection.name assetMatchOption +:+ " " +:+ quoted assetName +:+
          " from repository " +:+ quoted repoName)).

Local Abbreviation preview_s :=
  (repositories_delete_assets repoName assetName isWildcard true).
Local Abbreviation preview_r :=
  (repositories_delete_assets repoName assetName assetMatchOption true).
Local Abbreviation delete_s :=
  (repositories_delete_assets repoName assetName isWildcard false).
Local Abbreviation delete_r :=
  (repositories_delete_assets repoName assetName assetMatchOption false).
Local Abbreviation subcommand doForce :=
  (SubcommandRepository._cmd_del_assets repoName assetName isWildcard doForce).
Local Abbreviation root doForce :=
  (RootCommands._cmd_del_assets PLURAL py_str repoName assetName
     assetMatchOption doForce).

Lemma subcommand_zero_preview w w1 w2 assets_list :
  hs _ retrieving_s w = (inr (), w1) →
  hs _ preview_s w1 = (inr assets_list, w2) →
  Py.len assets_list = inr 0 →
  ends_with_report
    [Entry retrieving_s (inr ()); Entry preview_s (inr assets_list)]
    (stdout_write ("Found 0 matching assets: aborting delete" +:+ nl))
    SUCCESS (exec hs (subcommand false) w).
Proof.
  intros Hretrieve Hpreview Hzero.
  unfold SubcommandRepository._cmd_del_assets. cbv zeta. cbn [negb].
  rewrite exec_call_bind, Hretrieve. cbv beta iota zeta.
  rewrite exec_call_bind, Hpreview. cbv beta iota zeta.
  rewrite exec_lift_bind, Hzero. cbn [Nat.eqb].
  rewrite exec_call_bind.
  destruct (hs _ _ w2) as [[e|[]] w3]; eexists; split; reflexivity.
Qed.

Lemma root_zero_preview w w1 w2 assets_list :
  hr _ retrieving_r w = (inr (), w1) →
  hr _ preview_r w1 = (inr assets_list, w2) →
  Py.len assets_list = inr 0 →
  ends_with_report
    [Entry retrieving_r (inr ()); Entry preview_r (inr assets_list)]
    (print "Found 0 matching assets: aborting delete")
    SUCCESS (exec hr (root false) w).
Proof.
  intros Hretrieve Hpreview Hzero.
  unfold RootCommands._cmd_del_assets. cbv zeta. cbn [negb].
  rewrite exec_call_bind, Hretrieve. cbv beta iota zeta.
  rewrite exec_try_call, Hpreview. cbv beta iota zeta.
  cbn [try_except mbind prog_bind bind].
  rewrite exec_lift_bind, Hzero. cbn [Nat.eqb].
  rewrite exec_call_bind.
  destruct (hr _ _ w2) as [[e|[]] w3]; eexists; split; reflexivity.
Qed.




Lemma subcommand_forced w :
  deletes_at_once repoName assetName isWildcard (exec hs (subcommand true) w).
Proof.
  unfold SubcommandRepository._cmd_del_assets, deletes_at_once, only_writes.
  cbv zeta. cbn [negb].
  run_cases hs; eexists _, _; (split; [reflexivity|]); repeat constructor.
Qed.

Lemma root_forced w :
  deletes_at_once repoName assetName assetMatchOption (exec hr (root true) w).
Proof.
  unfold RootCommands._cmd_del_assets, deletes_at_once, only_writes.
  cbv zeta. cbn [negb].
  run_cases hr; eexists _, _; (split; [reflexivity|]); repeat constructor.
Qed.







End Workflow.

(** C5.  A run without [--force] whose preview call returns a value of
    length zero writes the zero-match report and ends: its calls are the
    announcement, the preview and the report, so there is no confirmation
    prompt and no call of the matcher with [dryRun=False]; it returns
    [SUCCESS] once the report is written.  This holds for the command of
    [subcommand_repository.py] and for the one of [root_commands.py]. *)
Theorem zero_preview_ends_the_workflow :
  (∀ W (hs : handler (Cli.cliE bool) W) repoName assetRegex isWildcard
     w w1 w2 assets_list,
     let retrieving :=
       Cli.stdout_write ("Retrieving assets matching " +:+ assetRegex +:+ Cli.nl) in
     let preview :=
       Cli.repositories_delete_assets repoName assetRegex isWildcard true in
     let r :=
       exec hs
         (SubcommandRepository._cmd_del_assets repoName assetRegex isWildcard
            false) w in
     hs _ retrieving w = (inr (), w1) →
     hs _ preview w1 = (inr assets_list, w2) →
     Py.len assets_list = inr 0 →
     ends_with_report
       [Entry retrieving (inr ()); Entry preview (inr assets_list)]
       (Cli.stdout_write ("Found 0 matching assets: aborting delete" +:+ Cli.nl))
       Cli.SUCCESS r ∧
     no_prompt_no_delete (trace r)) ∧
  (∀ W (hr : handler (Cli.cliE Collection.AssetMatchOptions) W) PLURAL py_str
     repoName assetName assetMatchOption w w1 w2 assets_list,
     let retrieving :=
       Cli.print ("Retrieving assets matching " +:+
                  Collection.name assetMatchOption +:+ " " +:+
                  Cli.quoted assetName +:+ " from repository " +:+
                  Cli.quoted repoName) in
     let preview :=
       Cli.repositories_delete_assets repoName assetName assetMatchOption true in
     let r :=
       exec hr
         (RootCommands._cmd_del_assets PLURAL py_str repoName assetName
            assetMatchOption false) w in
     hr _ retrieving w = (inr (), w1) →
     hr _ preview w1 = (inr assets_list, w2) →
     Py.len assets_list = inr 0 →
     ends_with_report
       [Entry retrieving (inr ()); Entry preview (inr assets_list)]
       (Cli.print "Found 0 matching assets: aborting delete")
       Cli.SUCCESS r ∧
     no_prompt_no_delete (trace r)).
Proof.
  split.
  - intros W hs repoName assetRegex isWildcard w w1 w2 assets_list
      retrieving preview r Hretrieve Hpreview Hzero.
    destruct (subcommand_zero_preview hs repoName assetRegex isWildcard
                w w1 w2 assets_list Hretrieve Hpreview Hzero)
      as (written & Htrace & Hout).
    split; [exists written; split; assumption|].
    unfold r. rewrite Htrace. repeat constructor.
  - intros W hr PLURAL py_str repoName assetName assetMatchOption w w1 w2
      assets_list retrieving preview r Hretrieve Hpreview Hzero.
    destruct (root_zero_preview PLURAL py_str hr repoName assetName
                assetMatchOption w w1 w2 assets_list Hretrieve Hpreview Hzero)
      as (written & Htrace & Hout).
    split; [exists written; split; assumption|].
    unfold r. rewrite Htrace. repeat constructor.
Qed.

(** C6.  A run with [--force] starts with the call of the matcher with
    [dryRun=False] and goes on with writes only: no call with [dryRun=True]
    and no confirmation prompt, whatever the collaborators answer.  This
    holds for both commands. *)
Theorem forced_run_deletes_at_once :
  (∀ W (hs : handler (Cli.cliE bool) W) repoName assetRegex isWildcard w,
     deletes_at_once repoName assetRegex isWildcard
       (exec hs
          (SubcommandRepository._cmd_del_assets repoName assetRegex isWildcard
             true) w)) ∧
  (∀ W (hr : handler (Cli.cliE Collection.AssetMatchOptions) W) PLURAL py_str
     repoName assetName assetMatchOption w,
     deletes_at_once repoName assetName assetMatchOption
       (exec hr
          (RootCommands._cmd_del_assets PLURAL py_str repoName assetName
             assetMatchOption true) w)).
Proof.
  split.
  - intros. apply subcommand_forced.
  - intros. apply root_forced.
Qed.

(** A preview that matches nothing, on the mock client. *)
Lemma zero_preview_ends_the_workflow_witness :
  let h : handler (Cli.cliE bool) unit :=
    mock_cli (inr (JList [])) (inr (JList [JStr "/r/a"])) in
  let retrieving :=
    Cli.stdout_write ("Retrieving assets matching " +:+ "a.*" +:+ Cli.nl) in
  let preview := Cli.repositories_delete_assets "repo" "a.*" false true in
  let r :=
    exec h (SubcommandRepository._cmd_del_assets "repo" "a.*" false false) () in
  ends_with_report
    [Entry retrieving (inr ()); Entry preview (inr (JList []))]
    (Cli.stdout_write ("Found 0 matching assets: aborting delete" +:+ Cli.nl))
    Cli.SUCCESS r ∧
  no_prompt_no_delete (trace r).
Proof.
  intros h retrieving preview r.
  apply (proj1 zero_preview_ends_the_workflow unit h "repo" "a.*" false
           () () () (JList [])); reflexivity.
Defined.




(** ** A dry run on the script service *)

Section DryRun.
Import Collection.
Context {A : Type}.
Variable run_script : string → string → A → result json * A.
Variable unknown_script : json.
Variable groovy_script : string → string.

(** After its three calls, [delete_assets] calls nothing more. *)
Lemma service_delete_assets reponame assetRegex isWildcard dryRun
    (st : Service.state A) :
  let content := groovy_script SCRIPT_NAME_DELETE_ASSETS in
  let payload :=
    Json.dumps (JDict (jsonData reponame assetRegex isWildcard dryRun)) in
  let answer := run_script content payload (Service.repositories st) in
  let r :=
    exec (Service.handle run_script unknown_script)
      (delete_assets groovy_script reponame assetRegex isWildcard dryRun) st in
  world r
  = Service.State (<[SCRIPT_NAME_DELETE_ASSETS := content]> (Service.scripts st))
      answer.2 ∧
  trace r
  = [ Entry (scripts_delete SCRIPT_NAME_DELETE_ASSETS) (inr ());
      Entry (scripts_create_if_missing SCRIPT_NAME_DELETE_ASSETS content)
        (inr ());
      Entry (scripts_run SCRIPT_NAME_DELETE_ASSETS payload) answer.1 ].
Proof.
  intros content payload answer r. subst r. unfold delete_assets. cbv zeta.
  fold content. fold payload.
  rewrite exec_call_bind. cbn [Service.handle]. cbv beta iota zeta.
  rewrite exec_call_bind.
  cbn [Service.handle Service.scripts Service.repositories].
  rewrite lookup_delete_eq. cbv beta iota zeta.
  rewrite exec_call_bind.
  cbn [Service.handle Service.scripts Service.repositories].
  rewrite lookup_insert_eq, insert_delete_eq. fold answer.
  destruct answer as [[e|response] repos]; cbn [fst snd after world trace].
  - split; reflexivity.
  - assert (Hpure :
      ∀ (tail : prog scriptsE json) (w : Service.state A),
        (world (exec (Service.handle run_script unknown_script) tail w) = w ∧
         trace (exec (Service.handle run_script unknown_script) tail w) = []) →
        world (after (Entry (scripts_delete SCRIPT_NAME_DELETE_ASSETS) (inr ()))
                 (after (Entry (scripts_create_if_missing
                                  SCRIPT_NAME_DELETE_ASSETS content) (inr ()))
                    (after (Entry (scripts_run SCRIPT_NAME_DELETE_ASSETS payload)
                              (inr response))
                       (exec (Service.handle run_script unknown_script) tail w))))
        = w ∧
        trace (after (Entry (scripts_delete SCRIPT_NAME_DELETE_ASSETS) (inr ()))
                 (after (Entry (scripts_create_if_missing
                                  SCRIPT_NAME_DELETE_ASSETS content) (inr ()))
                    (after (Entry (scripts_run SCRIPT_NAME_DELETE_ASSETS payload)
                              (inr response))
                       (exec (Service.handle run_script unknown_script) tail w))))
        = [ Entry (scripts_delete SCRIPT_NAME_DELETE_ASSETS) (inr ());
            Entry (scripts_create_if_missing SCRIPT_NAME_DELETE_ASSETS content)
              (inr ());
            Entry (scripts_run SCRIPT_NAME_DELETE_ASSETS payload) (inr response) ]).
    { intros tail w [Hw Ht]. cbn [after world trace]. rewrite Hw, Ht.
      split; reflexivity. }
    apply Hpure.
    repeat first
      [ rewrite exec_lift_bind_bind
      | rewrite exec_lift_bind
      | match goal with
        | |- context [match ?x with inl _ => _ | inr _ => _ end] => destruct x
        | |- context [if ?b then _ else _] => destruct b
        end
      | progress cbn [exec mbind prog_bind bind world trace] ];
      split; reflexivity.
Qed.

(** C7, amended.  An invocation with [dryRun=True] does change the script
    service: the deletion script is removed and installed again, so the
    registry holds the packaged body under its name afterwards.  Beyond
    that, the invocation touches the service only by running that body once,
    on a payload whose [dryRun] field is [true]: the repositories are what
    this one run leaves of them. *)
Theorem dry_run_reinstalls_and_runs_the_script reponame assetRegex isWildcard
    (st : Service.state A) :
  let content := groovy_script SCRIPT_NAME_DELETE_ASSETS in
  let payload :=
    Json.dumps (JDict (jsonData reponame assetRegex isWildcard true)) in
  let answer := run_script content payload (Service.repositories st) in
  let r :=
    exec (Service.handle run_script unknown_script)
      (delete_assets groovy_script reponame assetRegex isWildcard true) st in
  Service.scripts (world r)
  = <[SCRIPT_NAME_DELETE_ASSETS := content]> (Service.scripts st) ∧
  Service.repositories (world r) = answer.2 ∧
  trace r
  = [ Entry (scripts_delete SCRIPT_NAME_DELETE_ASSETS) (inr ());
      Entry (scripts_create_if_missing SCRIPT_NAME_DELETE_ASSETS content)
        (inr ());
      Entry (scripts_run SCRIPT_NAME_DELETE_ASSETS payload) answer.1 ] ∧
  Wire.decode payload = Some (Wire.Fields reponame assetRegex isWildcard true).
Proof.
  intros content payload answer r.
  destruct (service_delete_assets reponame assetRegex isWildcard true st)
    as [Hworld Htrace].
  fold content payload answer r in Hworld, Htrace.
  rewrite Hworld. repeat split; [exact Htrace|].
  unfold Wire.decode, payload. rewrite loads_dumps_jsonData. reflexivity.
Qed.

End DryRun.

(** C7 as stated fails: on a service that holds an older deletion script, a
    dry run leaves another state behind, although the script that ran
    touched nothing. *)
Lemma dry_run_changes_the_service :
  world
    (exec (Service.handle idle_engine JNull)
       (Collection.delete_assets mock_groovy_script "repo" "a" false true)
       stale_service)
  ≠ stale_service.
Proof.
  destruct (service_delete_assets idle_engine JNull mock_groovy_script
              "repo" "a" false true stale_service) as [Hworld _].
  cbv zeta in Hworld. rewrite Hworld. intros Heq.
  apply (f_equal (λ st, Service.scripts st
                          !! Collection.SCRIPT_NAME_DELETE_ASSETS)) in Heq.
  cbn [Service.scripts stale_service] in Heq.
  rewrite lookup_insert_eq, lookup_singleton_eq in Heq. discriminate.
Qed.

(** ** The request on the wire *)




(** * Further properties *)

(** ** Looking a repository up *)

Lemma is_str_true k v : Py.is_str k v = true ↔ v = JStr k.
Proof.
  destruct v; cbn; try (split; [discriminate|congruence]).
  rewrite String.eqb_eq. split; congruence.
Qed.

Lemma is_str_false k v : Py.is_str k v = false ↔ v ≠ JStr k.
Proof.
  rewrite <- is_str_true. destruct (Py.is_str k v); split; congruence.
Qed.

Section Lookup.
Import Repositories.

Lemma loop_returns name items r :
  get_raw_by_name_loop name items = inr r →
  ∃ before rest,
    items = before ++ r :: rest ∧
    Py.getitem r "name" = inr (JStr name) ∧
    Forall (named_otherwise name) before.
Proof.
  induction items as [|x items IH]; cbn [get_raw_by_name_loop].
  - discriminate.
  - destruct (Py.getitem x "name") as [e|n] eqn:Hn; cbn; [discriminate|].
    destruct (Py.is_str name n) eqn:Hstr.
    + intros [= <-]. apply is_str_true in Hstr. subst n.
      exists [], items. repeat split; [assumption|constructor].
    + intros Hloop. destruct (IH Hloop) as (before & rest & -> & Hr & Hbefore).
      exists (x :: before), rest. repeat split; [assumption|].
      constructor; [|assumption]. exists n. split; [assumption|].
      apply is_str_false. assumption.
Qed.

Lemma loop_index_error name items :
  get_raw_by_name_loop name items = inl IndexError ↔
  Forall (named_otherwise name) items.
Proof.
  induction items as [|x items IH]; cbn [get_raw_by_name_loop].
  - split; [constructor|reflexivity].
  - destruct (Py.getitem x "name") as [e|n] eqn:Hn; cbn.
    + split; [discriminate|]. intros H. inversion H as [|? ? (n & Hn' & _) _].
      congruence.
    + destruct (Py.is_str name n) eqn:Hstr.
      * split; [discriminate|]. intros H.
        inversion H as [|? ? (n' & Hn' & Hne) _].
        apply is_str_true in Hstr. congruence.
      * rewrite IH. split.
        -- intros H. constructor; [|assumption]. exists n.
           split; [exact Hn|]. apply is_str_false. assumption.
        -- intros H. inversion H. assumption.
Qed.

(** X1.  What [get_raw_by_name] returns is an item of the cached listing
    whose [name] is the name asked for, and the first such: every item
    before it has a [name], another one. *)
Theorem get_raw_by_name_returns_the_first_match self name r :
  get_raw_by_name self name = inr r →
  ∃ items before rest,
    iter (_repositories_json self) = inr items ∧
    items = before ++ r :: rest ∧
    Py.getitem r "name" = inr (JStr name) ∧
    Forall (named_otherwise name) before.
Proof.
  unfold get_raw_by_name.
  destruct (iter (_repositories_json self)) as [e|items]; cbn; [discriminate|].
  intros Hloop. destruct (loop_returns name items r Hloop)
    as (before & rest & Hitems & Hr & Hbefore).
  exists items, before, rest. repeat split; assumption.
Qed.

Lemma get_raw_by_name_index_error_iff self name :
  get_raw_by_name self name = inl IndexError ↔
  ∃ items,
    iter (_repositories_json self) = inr items ∧
    Forall (named_otherwise name) items.
Proof.
  unfold get_raw_by_name.
  destruct (iter (_repositories_json self)) as [e|items]; cbn.
  - split; [discriminate|]. intros (items & [=] & _).
  - rewrite loop_index_error. split.
    + intros H. exists items. split; [reflexivity|assumption].
    + intros (items' & [= <-] & H). assumption.
Qed.

(** X2.  [get_raw_by_name] raises [IndexError] exactly when the cache can be
    iterated and every item of it has a [name] that is not the name asked
    for; an item without a [name] raises before the end is reached. *)
Theorem get_raw_by_name_index_error self name :
  get_raw_by_name self name = inl IndexError ↔
  ∃ items,
    iter (_repositories_json self) = inr items ∧
    Forall (named_otherwise name) items.
Proof. apply get_raw_by_name_index_error_iff. Qed.

(** The loop raises [IndexError] or what a built-in raised. *)
Lemma loop_raises name items e :
  get_raw_by_name_loop name items = inl e →
  e = IndexError ∨ ∃ b, e = Builtin b.
Proof.
  induction items as [|x items IH]; cbn [get_raw_by_name_loop].
  - intros [= <-]. left. reflexivity.
  - destruct (Py.getitem x "name") as [b|n]; cbn.
    + intros [= <-]. right. exists b. reflexivity.
    + destruct (Py.is_str name n); [discriminate|exact IH].
Qed.

Lemma get_raw_by_name_raises self name e :
  get_raw_by_name self name = inl e →
  e = IndexError ∨ ∃ b, e = Builtin b.
Proof.
  unfold get_raw_by_name.
  destruct (iter (_repositories_json self)) as [b|items]; cbn.
  - intros [= <-]. right. exists b. reflexivity.
  - apply loop_raises.
Qed.

Section Classes.
Context {C : Type}.
Variable model_all : list C.
Variable name_of : C → string.
Variable Repository_RECIPES : list string.
Variable title : string → string.

Local Abbreviation class_name_of :=
  (raw_repo_to_class_name Repository_RECIPES title).
Local Abbreviation class_of :=
  (get_repository_class model_all name_of Repository_RECIPES title).
Local Abbreviation lookup :=
  (get_by_name model_all name_of Repository_RECIPES title).

(** Breaks the result of every step of an attempt into its cases. *)
Ltac attempt_cases :=
  unfold mbind, attempt_bind, builtin, title_of;
  repeat
    (cbv beta iota;
     match goal with
     | |- context [Py.getitem ?v ?k] => destruct (Py.getitem v k) eqn:?
     | |- context [Py.is_str ?k ?v] => destruct (Py.is_str k v) eqn:?
     | |- context [existsb ?f ?l] => destruct (existsb f l) eqn:?
     | |- context [match ?x with JStr _ => _ | _ => _ end] =>
         is_var x; destruct x
     end);
  cbn [negb].

Lemma class_name_never_invalid raw_repo n :
  class_name_of raw_repo ≠ inl (NexusClientInvalidRepository n).
Proof.
  unfold raw_repo_to_class_name, raw_repo_to_recipe.
  attempt_cases; discriminate.
Qed.

Lemma class_never_invalid raw_repo n :
  class_of raw_repo ≠ inl (NexusClientInvalidRepository n).
Proof.
  unfold get_repository_class.
  pose proof (class_name_never_invalid raw_repo n) as Hname.
  destruct (class_name_of raw_repo) as [e|cn]; cbn.
  - congruence.
  - destruct (find _ model_all); discriminate.
Qed.

Lemma args_kwargs_never_invalid raw_repo n :
  raw_repo_to_args_kwargs raw_repo ≠ inl (NexusClientInvalidRepository n).
Proof.
  unfold raw_repo_to_args_kwargs, raw_repo_to_recipe.
  attempt_cases; discriminate.
Qed.

(** X3.  [get_by_name] raises [NexusClientInvalidRepository] only for the
    name asked for, and exactly when the cache can be iterated and every
    item of it has a [name] that is not this name.  No other failure, of
    the lookup or of the choice of the class, is reported this way. *)
Theorem get_by_name_invalid_repository self name n :
  lookup self name = inl (NexusClientInvalidRepository n) ↔
  n = name ∧
  ∃ items,
    iter (_repositories_json self) = inr items ∧
    Forall (named_otherwise name) items.
Proof.
  rewrite <- get_raw_by_name_index_error_iff. unfold get_by_name.
  destruct (get_raw_by_name self name) as [e|raw_repo] eqn:Hraw.
  - destruct (get_raw_by_name_raises self name e Hraw) as [->|[b ->]]; cbn.
    + split; [intros [= <-]; split; reflexivity|intros [-> _]; reflexivity].
    + split; [discriminate|intros [_ [=]]].
  - cbn [mbind attempt_bind].
    pose proof (class_never_invalid raw_repo n) as Hclass.
    pose proof (args_kwargs_never_invalid raw_repo n) as Hargs.
    split; [|intros [_ [=]]].
    destruct (class_of raw_repo) as [e|c]; cbn; [congruence|].
    destruct (raw_repo_to_args_kwargs raw_repo) as [e|[args kwargs]]; cbn;
      [congruence|discriminate].
Qed.

(** X4.  On a collection that was never refreshed, [get_raw_by_name] and
    [get_by_name] raise [TypeError] for every name: the cache is [None],
    which the loop cannot iterate, and [get_by_name] lets the error through. *)
Theorem lookup_before_refresh name :
  get_raw_by_name __init__ name = inl (Builtin TypeError) ∧
  lookup __init__ name = inl (Builtin TypeError).
Proof. split; reflexivity. Qed.

(** X5.  When [get_by_name] succeeds, the class it calls is one of
    [model.__all__] and bears the name computed for the raw repository
    found, and the only positional argument is the name asked for. *)
Theorem get_by_name_instantiates self name inst :
  lookup self name = inr inst →
  ∃ raw_repo,
    get_raw_by_name self name = inr raw_repo ∧
    In (class_called inst) model_all ∧
    class_name_of raw_repo = inr (name_of (class_called inst)) ∧
    args_given inst = [JStr name].
Proof.
  unfold get_by_name.
  destruct (get_raw_by_name self name) as [e|raw_repo] eqn:Hraw.
  { destruct e; discriminate. }
  cbn [mbind attempt_bind]. unfold get_repository_class.
  destruct (class_name_of raw_repo) as [e|cn] eqn:Hcn; cbn; [discriminate|].
  destruct (find _ model_all) as [c|] eqn:Hfind; cbn; [|discriminate].
  apply find_some in Hfind as [Hin Hname]. apply String.eqb_eq in Hname.
  destruct (raw_repo_to_args_kwargs raw_repo) as [e|[args kwargs]] eqn:Hargs;
    cbn; [discriminate|].
  intros [= <-]. exists raw_repo. cbn.
  repeat split; [assumption|congruence|].
  unfold get_raw_by_name in Hraw.
  destruct (iter (_repositories_json self)) as [e|items]; [discriminate|].
  cbn in Hraw.
  destruct (loop_returns name items raw_repo Hraw) as (_ & _ & _ & Hr & _).
  revert Hargs. unfold raw_repo_to_args_kwargs. rewrite Hr.
  cbn [mbind attempt_bind builtin].
  destruct (raw_repo_to_recipe raw_repo); cbn; [discriminate|].
  destruct (Py.getitem raw_repo "type") as [e|type]; cbn; [discriminate|].
  destruct (Py.is_str "proxy" type); cbn.
  - destruct (Py.getitem raw_repo "url"); cbn; [discriminate|congruence].
  - congruence.
Qed.

(** X6.  [get_repository_class] raises [NotImplementedError] exactly when
    the class name is computed and no class of [model.__all__] bears it;
    the class it returns is the first of [model.__all__] with that name. *)
Theorem get_repository_class_by_name raw_repo :
  let class_ :=
    get_repository_class model_all name_of Repository_RECIPES title raw_repo in
  let class_name :=
    raw_repo_to_class_name Repository_RECIPES title raw_repo in
  (∀ cn raw,
     class_ = inl (NotImplementedError cn raw) ↔
     class_name = inr cn ∧ raw = raw_repo ∧
     Forall (λ c, name_of c ≠ cn) model_all) ∧
  (∀ c,
     class_ = inr c ↔
     ∃ before rest,
       model_all = before ++ c :: rest ∧
       class_name = inr (name_of c) ∧
       Forall (λ c', name_of c' ≠ name_of c) before).
Proof.
  cbv zeta.
  unfold get_repository_class.
  assert (Hfind :
    ∀ cn l,
      match find (λ class_, String.eqb (name_of class_) cn) l with
      | Some c =>
          ∃ before rest,
            l = before ++ c :: rest ∧ name_of c = cn ∧
            Forall (λ c', name_of c' ≠ cn) before
      | None => Forall (λ c, name_of c ≠ cn) l
      end).
  { intros cn l. induction l as [|c l IH]; cbn; [constructor|].
    destruct (String.eqb (name_of c) cn) eqn:Hc.
    - apply String.eqb_eq in Hc. exists [], l. repeat split; [assumption|].
      constructor.
    - apply String.eqb_neq in Hc.
      destruct (find _ l) as [c'|].
      + destruct IH as (before & rest & -> & Hname & Hbefore).
        exists (c :: before), rest. repeat split; [assumption|].
        constructor; assumption.
      + constructor; assumption. }
  assert (Hunique :
    ∀ cn (b1 b2 r1 r2 : list C) c1 c2,
      b1 ++ c1 :: r1 = b2 ++ c2 :: r2 →
      name_of c1 = cn → name_of c2 = cn →
      Forall (λ c', name_of c' ≠ cn) b1 →
      Forall (λ c', name_of c' ≠ cn) b2 →
      c1 = c2).
  { intros cn b1. induction b1 as [|x b1 IH]; intros [|y b2] r1 r2 c1 c2;
      cbn; intros Heq H1 H2 Hb1 Hb2.
    - congruence.
    - injection Heq as -> _. inversion Hb2. congruence.
    - injection Heq as -> _. inversion Hb1. congruence.
    - injection Heq as _ Heq. inversion Hb1. inversion Hb2. eauto. }
  destruct (class_name_of raw_repo) as [e|cn] eqn:Hcn; cbn.
  - split.
    + intros cn raw. split; [|intros [[=] _]].
      intros [= ->]. exfalso.
      revert Hcn. unfold raw_repo_to_class_name, raw_repo_to_recipe.
      attempt_cases; discriminate.
    + intros c. split; [discriminate|]. intros (_ & _ & _ & [=] & _).
  - pose proof (Hfind cn model_all) as Hcase.
    destruct (find _ model_all) as [c0|]; split.
    + intros cn' raw. split; [discriminate|].
      intros ([= <-] & _ & Hnone).
      destruct Hcase as (before & rest & Hall & Hname & _).
      rewrite Hall in Hnone. apply Forall_app in Hnone as [_ Hnone].
      inversion Hnone. congruence.
    + intros c. split.
      * intros [= <-]. destruct Hcase as (before & rest & Hall & <- & Hb).
        exists before, rest. repeat split; assumption.
      * intros (before & rest & Hall & [= ->] & Hb).
        destruct Hcase as (before0 & rest0 & Hall0 & Hname0 & Hb0).
        f_equal.
        apply (Hunique (name_of c) before0 before rest0 rest c0 c);
          [congruence|assumption|reflexivity|assumption..].
    + intros cn' raw. split.
      * intros [= <- <-]. repeat split. assumption.
      * intros ([= <-] & -> & _). reflexivity.
    + intros c. split; [discriminate|].
      intros (before & rest & Hall & [= Hname] & _).
      rewrite Hall in Hcase. apply Forall_app in Hcase as [_ Hcase].
      inversion Hcase. congruence.
Qed.

End Classes.

End Lookup.

(** ** The format [maven2] *)

Lemma dict_get_set_same d k v : Py.dict_get (Py.dict_set d k v) k = Some v.
Proof.
  induction d as [|[k' v'] d IH]; cbn.
  - rewrite String.eqb_refl. reflexivity.
  - destruct (String.eqb k' k) eqn:Hk; cbn; rewrite Hk; [reflexivity|exact IH].
Qed.

Lemma dict_get_set_other d k v k' :
  k ≠ k' → Py.dict_get (Py.dict_set d k v) k' = Py.dict_get d k'.
Proof.
  intros Hne. induction d as [|[k0 v0] d IH]; cbn.
  - apply String.eqb_neq in Hne. rewrite Hne. reflexivity.
  - destruct (String.eqb k0 k) eqn:Hk; cbn.
    + apply String.eqb_eq in Hk. subst k0.
      apply String.eqb_neq in Hne. rewrite Hne. reflexivity.
    + destruct (String.eqb k0 k'); [reflexivity|exact IH].
Qed.

Section Maven.
Import Repositories.
Variable Repository_RECIPES : list string.
Variable title : string → string.

(** X7.  A raw repository of format [maven2] is treated as one of format
    [maven]: whatever else the dict holds, the recipe is [maven], and the
    class name and the arguments for the constructor are those of the same
    dict with format [maven]. *)
Theorem maven2_is_maven (d : list (string * json)) :
  let maven2 := JDict (Py.dict_set d "format" (JStr "maven2")) in
  let maven := JDict (Py.dict_set d "format" (JStr "maven")) in
  raw_repo_to_recipe maven2 = inr (JStr "maven") ∧
  raw_repo_to_class_name Repository_RECIPES title maven2
  = raw_repo_to_class_name Repository_RECIPES title maven ∧
  raw_repo_to_args_kwargs maven2 = raw_repo_to_args_kwargs maven.
Proof.
  intros maven2 maven.
  assert (Hformat : ∀ v, Py.getitem (JDict (Py.dict_set d "format" v)) "format"
                         = inr v).
  { intros v. cbn. rewrite dict_get_set_same. reflexivity. }
  assert (Hother :
    ∀ v k, "format" ≠ k →
           Py.getitem (JDict (Py.dict_set d "format" v)) k
           = Py.getitem (JDict d) k).
  { intros v k Hk. cbn. rewrite dict_get_set_other by exact Hk. reflexivity. }
  assert (Hrecipe : raw_repo_to_recipe maven2 = raw_repo_to_recipe maven).
  { unfold raw_repo_to_recipe, maven2, maven. rewrite !Hformat. reflexivity. }
  repeat split.
  - unfold raw_repo_to_recipe, maven2. rewrite Hformat. reflexivity.
  - unfold raw_repo_to_class_name. rewrite Hrecipe. unfold maven2, maven.
    rewrite !Hother by discriminate. reflexivity.
  - unfold raw_repo_to_args_kwargs. rewrite Hrecipe. unfold maven2, maven.
    rewrite !Hother by discriminate. reflexivity.
Qed.

End Maven.

(** ** Refreshing the listing *)

Section Refresh.
Import Repositories.
Context {W : Type} (h : handler httpE W).

(** X8.  [raw_list] makes one GET of [repositories] and nothing else.  When
    it returns, the status was 200, the value returned is the decoded body
    and is what the collection caches from then on, whatever it cached
    before: a repository that [get_raw_by_name] finds afterwards is an item
    of this body.  With another status it raises [NexusClientAPIError] with
    the raw content. *)
Theorem raw_list_refreshes self w :
  let r := exec h (raw_list self) w in
  ∃ answer,
    trace r = [Entry (http_get "repositories") answer] ∧
    (∀ self' listing,
       outcome r = inr (self', listing) →
       _repositories_json self' = listing ∧
       (∃ resp, answer = inr resp ∧ status_code resp = 200%Z ∧
                json_body resp = inr listing) ∧
       ∀ name found,
         get_raw_by_name self' name = inr found →
         ∃ items, iter listing = inr items ∧ In found items) ∧
    (∀ resp,
       answer = inr resp → status_code resp ≠ 200%Z →
       outcome r = inl (NexusClientAPIError (JStr (content resp)))).
Proof.
  intros r. subst r. unfold raw_list, refresh.
  change (exec h
            ((call (http_get "repositories") ≫= _) ≫= _) w)
    with (exec h
            ((call (http_get "repositories")
              ≫= (λ response : response,
                    if negb (status_code response =? 200)%Z
                    then Raise (NexusClientAPIError (JStr (content response)))
                    else
                      lift (json_body response)
                      ≫= λ body, Ret {| _repositories_json := body |}))
             ≫= λ self0, Ret (self0, _repositories_json self0)) w).
  rewrite exec_call_bind_bind.
  destruct (h _ (http_get "repositories") w) as [[e|resp] w1].
  - exists (inl e). cbn. split; [reflexivity|]. split; discriminate.
  - exists (inr resp). cbn [after trace outcome].
    destruct (status_code resp =? 200)%Z eqn:Hstatus; cbn [negb].
    + apply Z.eqb_eq in Hstatus. rewrite exec_lift_bind_bind.
      destruct (json_body resp) as [e|body] eqn:Hbody; cbn.
      * split; [reflexivity|]. split; [discriminate|].
        intros resp' [= <-]. congruence.
      * split; [reflexivity|]. split.
        -- intros refreshed listing [= <- <-]. split; [reflexivity|]. split.
           ++ exists resp. repeat split; assumption.
           ++ intros name found Hfound. unfold get_raw_by_name in Hfound.
              cbn [_repositories_json] in Hfound.
              destruct (iter body) as [e|items]; [discriminate|].
              cbn in Hfound.
              destruct (loop_returns name items found Hfound)
                as (before & rest & -> & _).
              exists (before ++ found :: rest). split; [reflexivity|].
              apply in_or_app. right. left. reflexivity.
        -- intros resp' [= <-]. congruence.
    + apply Z.eqb_neq in Hstatus. cbn. split; [reflexivity|]. split.
      * discriminate.
      * intros resp' [= <-] _. reflexivity.
Qed.

End Refresh.

(** ** Deleting and creating a repository *)

Section DeleteCreate.
Import Collection Repositories.
Variable groovy_script : string → string.
Context {W : Type} (h : handler scriptsE W).

(** X9.  [delete] installs the deletion script only if missing and runs it
    with the repository name itself as data: its calls are these two, in
    this order, and the script runs only when the first call answered.  It
    never calls [scripts.delete], so a script already installed under the
    name is never replaced here. *)
Theorem delete_calls name w :
  let r := exec h (delete groovy_script name) w in
  let install :=
    scripts_create_if_missing SCRIPT_NAME_DELETE
      (groovy_script SCRIPT_NAME_DELETE) in
  (∃ e, trace r = [Entry install (inl e)] ∧ outcome r = inl e) ∨
  (∃ answer,
     trace r = [Entry install (inr ());
                Entry (scripts_run SCRIPT_NAME_DELETE name) answer] ∧
     outcome r = (match answer with inl e => inl e | inr _ => inr () end)).
Proof.
  intros r install. subst r. unfold delete. cbv zeta. fold install.
  rewrite exec_call_bind.
  destruct (h _ install w) as [[e|[]] w1].
  - left. exists e. split; reflexivity.
  - right. rewrite exec_call_bind.
    destruct (h _ _ w1) as [[e|v] w2].
    + exists (inl e). split; reflexivity.
    + exists (inr v). split; reflexivity.
Qed.

(** X10.  Once the script has answered, [create] succeeds exactly when the
    response is a dict whose [result] is the str ["null"]; a dict with any
    other [result], with a JSON null or with no [result] at all, raises
    [NexusClientCreateRepositoryError] with the response. *)
Theorem create_needs_the_text_null repository w w1 w2 resp :
  is_Repository repository = true →
  h _ (scripts_create_if_missing SCRIPT_NAME_CREATE
         (groovy_script SCRIPT_NAME_CREATE)) w = (inr (), w1) →
  h _ (scripts_run SCRIPT_NAME_CREATE
         (Json.dumps (configuration repository))) w1 = (inr resp, w2) →
  let r := exec h (create groovy_script repository) w in
  (outcome r = inr (inr ()) ↔
   ∃ d, resp = JDict d ∧ Py.dict_get d "result" = Some (JStr "null")) ∧
  (∀ d, resp = JDict d →
        Py.dict_get d "result" ≠ Some (JStr "null") →
        outcome r = inr (inl (NexusClientCreateRepositoryError resp))).
Proof.
  intros Hclass Hinstall Hrun r. subst r. unfold create. rewrite Hclass.
  cbn [negb]. cbv zeta.
  rewrite exec_call_bind, Hinstall. cbv beta iota.
  rewrite exec_call_bind, Hrun. cbv beta iota. cbn [after outcome exec].
  unfold get, mbind, attempt_bind. split.
  - split.
    + destruct resp as [| | | | |d]; try discriminate.
      destruct (Py.dict_get d "result") as [v|] eqn:Hget; cbn.
      * destruct (Py.is_str "null" v) eqn:Hv; cbn; [|discriminate].
        apply is_str_true in Hv. subst v. intros _. exists d.
        split; [reflexivity|exact Hget].
      * discriminate.
    + intros (d & -> & ->). reflexivity.
  - intros d -> Hne.
    destruct (Py.dict_get d "result") as [v|] eqn:Hget; cbn; [|reflexivity].
    destruct (Py.is_str "null" v) eqn:Hv; cbn; [|reflexivity].
    apply is_str_true in Hv. congruence.
Qed.

End DeleteCreate.

(** ** Yes or no *)

Section YesNo.
Import RootMore.
Context {W : Type} (h : handler rootE W).

Lemma option_of_key_error d k e :
  option_of d k = inl e → e = KeyError k.
Proof.
  induction d as [|[k' b] d IH]; cbn.
  - intros [= <-]. reflexivity.
  - destruct (String.eqb k' k); [discriminate|exact IH].
Qed.

(** X11.  [_input_yesno] asks once.  An answer that, in lower case, is one
    of the eight options gives the option's value; any other answer gives
    the default.  [KeyError] never leaves the function, not even when it is
    the prompt itself that raises it: the default is returned then too. *)
Theorem input_yesno_falls_back_to_the_default prompt default w :
  let r := exec h (_input_yesno prompt default) w in
  let ask := input_with_default prompt default in
  (∃ reply, trace r = [Entry ask reply] ∧
     outcome r =
     (match reply with
      | inr answer =>
          inr (match option_of YESNO_OPTIONS (lower answer) with
               | inr choice => choice
               | inl _ => default
               end)
      | inl (KeyError _) => inr default
      | inl e => inl e
      end)) ∧
  (∀ k, outcome r = inl (KeyError k) → False).
Proof.
  intros r ask.
  assert (Hshape : ∃ reply, trace r = [Entry ask reply] ∧
     outcome r =
     (match reply with
      | inr answer =>
          inr (match option_of YESNO_OPTIONS (lower answer) with
               | inr choice => choice
               | inl _ => default
               end)
      | inl (KeyError _) => inr default
      | inl e => inl e
      end)).
  { subst r ask. unfold _input_yesno, mbind, prog_bind, call, lift.
    cbn [exec bind try_except].
    destruct (h _ (input_with_default prompt default) w) as [[e|answer] w1].
    - exists (inl e). destruct e; cbn; split; reflexivity.
    - exists (inr answer). cbn [after trace outcome exec bind try_except].
      destruct (option_of YESNO_OPTIONS (lower answer)) as [e|choice] eqn:Hopt.
      + apply option_of_key_error in Hopt. subst e. cbn. split; reflexivity.
      + cbn. split; reflexivity. }
  split; [exact Hshape|].
  destruct Hshape as (reply & _ & ->). intros k.
  destruct reply as [[]|answer]; discriminate.
Qed.

End YesNo.

(** ** Uploading and downloading *)

Section Transfers.
Import Cli RootMore.
Variable PLURAL : string → Z → string.
Context {W : Type} (h : handler rootE W).

(** X12.  Once [nexus_client.upload] has returned a count, [cmd_upload]
    exits with [NO_FILES] for the count 0 and with [API_ERROR] for the
    count -1, writing a warning first in both cases; for every other count,
    a negative one such as -2 included, it reports the count and returns
    [SUCCESS]. *)
Theorem cmd_upload_exit_codes a w w1 w2 (count : Z) :
  let announce :=
    stderr_write ("Uploading " +:+ from_src a +:+ " to "
                  +:+ to_repository a +:+ nl) in
  let upload :=
    nexus_upload (from_src a) (to_repository a) (upload_flatten a)
      (negb (norecurse a)) in
  h _ announce w = (inr (), w1) →
  h _ upload w1 = (inr count, w2) →
  let r := exec h (cmd_upload PLURAL a) w in
  ∃ message written,
    trace r = [Entry announce (inr ()); Entry upload (inr count);
               Entry (stderr_write message) written] ∧
    (∀ e, written = inl e → outcome r = inl e) ∧
    (written = inr () →
     outcome r =
     inr (if (count =? 0)%Z then inl (SystemExit NO_FILES)
          else if (count =? -1)%Z then inl (SystemExit API_ERROR)
          else inr SUCCESS)) ∧
    message =
    (if (count =? 0)%Z then "WARNING: no files were upload'ed."
     else if (count =? -1)%Z then "ERROR during upload operation."
     else "Uploaded " +:+ Py.str_of_int count +:+ " "
          +:+ PLURAL "file" count +:+ " to " +:+ to_repository a +:+ nl).
Proof.
  intros announce upload Hannounce Hupload r. subst r.
  unfold cmd_upload. cbv zeta. fold announce upload.
  rewrite exec_call_bind, Hannounce. cbv beta iota.
  rewrite exec_call_bind, Hupload. cbv beta iota.
  unfold _cmd_up_down_errors.
  destruct (count =? 0)%Z; [|destruct (count =? -1)%Z].
  - rewrite exec_call_bind_bind.
    destruct (h _ _ w2) as [[e|[]] w3]; eexists _, _;
      (split; [reflexivity|]); (split; [|split]);
      first [reflexivity | discriminate | intros ? [= <-]; reflexivity
            | intros _; reflexivity ].
  - rewrite exec_call_bind_bind.
    destruct (h _ _ w2) as [[e|[]] w3]; eexists _, _;
      (split; [reflexivity|]); (split; [|split]);
      first [reflexivity | discriminate | intros ? [= <-]; reflexivity
            | intros _; reflexivity ].
  - cbn [mbind prog_bind bind]. rewrite exec_call_bind.
    destruct (h _ _ w2) as [[e|[]] w3]; eexists _, _;
      (split; [reflexivity|]); (split; [|split]);
      first [reflexivity | discriminate | intros ? [= <-]; reflexivity
            | intros _; reflexivity ].
Qed.

(** X13.  [cmd_download] treats the count that [nexus_client.download]
    returns in the same way: [NO_FILES] for 0, [API_ERROR] for -1, and
    [SUCCESS] with a report for every other count. *)
Theorem cmd_download_exit_codes a w w1 w2 (count : Z) :
  let announce :=
    stderr_write ("Downloading " +:+ from_repository a +:+ " to "
                  +:+ to_dst a +:+ nl) in
  let download :=
    nexus_download (from_repository a) (to_dst a) (download_flatten a)
      (nocache a) in
  h _ announce w = (inr (), w1) →
  h _ download w1 = (inr count, w2) →
  let r := exec h (cmd_download PLURAL a) w in
  ∃ message written,
    trace r = [Entry announce (inr ()); Entry download (inr count);
               Entry (stderr_write message) written] ∧
    (∀ e, written = inl e → outcome r = inl e) ∧
    (written = inr () →
     outcome r =
     inr (if (count =? 0)%Z then inl (SystemExit NO_FILES)
          else if (count =? -1)%Z then inl (SystemExit API_ERROR)
          else inr SUCCESS)) ∧
    message =
    (if (count =? 0)%Z then "WARNING: no files were download'ed."
     else if (count =? -1)%Z then "ERROR during download operation."
     else "Downloaded " +:+ Py.str_of_int count +:+ " "
          +:+ PLURAL "file" count +:+ " to " +:+ to_dst a +:+ nl).
Proof.
  intros announce download Hannounce Hdownload r. subst r.
  unfold cmd_download. cbv zeta. fold announce download.
  rewrite exec_call_bind, Hannounce. cbv beta iota.
  rewrite exec_call_bind, Hdownload. cbv beta iota.
  unfold _cmd_up_down_errors.
  destruct (count =? 0)%Z; [|destruct (count =? -1)%Z].
  - rewrite exec_call_bind_bind.
    destruct (h _ _ w2) as [[e|[]] w3]; eexists _, _;
      (split; [reflexivity|]); (split; [|split]);
      first [reflexivity | discriminate | intros ? [= <-]; reflexivity
            | intros _; reflexivity ].
  - rewrite exec_call_bind_bind.
    destruct (h _ _ w2) as [[e|[]] w3]; eexists _, _;
      (split; [reflexivity|]); (split; [|split]);
      first [reflexivity | discriminate | intros ? [= <-]; reflexivity
            | intros _; reflexivity ].
  - cbn [mbind prog_bind bind]. rewrite exec_call_bind.
    destruct (h _ _ w2) as [[e|[]] w3]; eexists _, _;
      (split; [reflexivity|]); (split; [|split]);
      first [reflexivity | discriminate | intros ? [= <-]; reflexivity
            | intros _; reflexivity ].
Qed.

End Transfers.

(** ** Deleting a repository from the command line *)

Section RepositoryDelete.
Import SubcommandMore.
Context {W : Type} (h : handler repoE W).

(** X14.  Unless forced, [cmd_delete] prompts first and deletes only when
    the prompt returns; what the prompt returns is not looked at, so every
    answer is followed by the deletion.  A forced run deletes at once.  The
    code is [SUCCESS] whenever the deletion returns. *)
Theorem cmd_delete_ignores_the_answer a w :
  let r := exec h (cmd_delete a) w in
  let ask :=
    input_with_default "Press ENTER to confirm deletion" "ctrl+c to cancel" in
  let ended (before : list (entry repoE)) :=
    ∃ deleted,
      trace r = before ++ [Entry (repositories_delete (repo_name a)) deleted] ∧
      outcome r = (match deleted with
                   | inl e => inl e
                   | inr _ => inr Cli.SUCCESS
                   end) in
  if force a then ended []
  else (∃ e, trace r = [Entry ask (inl e)] ∧ outcome r = inl e) ∨
       (∃ answer, ended [Entry ask (inr answer)]).
Proof.
  intros r ask ended. subst r ask ended. unfold cmd_delete.
  destruct (force a); cbn [negb]; unfold mbind, prog_bind, call;
    cbn [exec bind].
  - destruct (h _ _ w) as [[e|[]] w1]; eexists; split; reflexivity.
  - destruct (h _ _ w) as [[e|answer] w1].
    + left. exists e. split; reflexivity.
    + right. exists answer. cbn [exec bind].
      destruct (h _ _ w1) as [[e|[]] w2]; eexists; split; reflexivity.
Qed.

End RepositoryDelete.

(** ** The calls of the matcher in the deletion workflow *)

(** Runs a command call after call, keeping what each answer was. *)
Ltac run_all h :=
  repeat first
    [ rewrite exec_call_bind
    | rewrite exec_lift_bind
    | rewrite exec_try_call
    | match goal with
      | |- context [h ?X ?c ?w] => destruct (h X c w) as [[?|?] ?]
      | |- context [Py.len ?a] => destruct (Py.len a) as [?|[|?]] eqn:?
      | |- context [Py.join ?s ?a] => destruct (Py.join s a)
      | u : unit |- _ => destruct u
      end
    | progress cbn [after trace outcome world Nat.eqb] ].

Section Confirmation.
Import Cli.

Variable PLURAL : string → nat → string.
Variable py_str : json → string.
Context {W : Type}.
Variable hs : handler (cliE bool) W.
Variable hr : handler (cliE Collection.AssetMatchOptions) W.
Variables (repoName assetName : string).
Variables (isWildcard : bool) (assetMatchOption : Collection.AssetMatchOptions).

Local Abbreviation retrieving_s :=
  (stdout_write ("Retrieving assets matching " +:+ assetName +:+ nl)).
Local Abbreviation retrieving_r :=
  (print ("Retrieving assets matching " +:+
          Collection.name assetMatchOption +:+ " " +:+ quoted assetName +:+
          " from repository " +:+ quoted repoName)).
Local Abbreviation subcommand doForce :=
  (SubcommandRepository._cmd_del_assets repoName assetName isWildcard doForce).
Local Abbreviation root doForce :=
  (RootCommands._cmd_del_assets PLURAL py_str repoName assetName
     assetMatchOption doForce).

Lemma subcommand_confirmed w :
  existsb (is_delete_assets false) (trace (exec hs (subcommand false) w)) = true →
  confirmed_delete retrieving_s repoName assetName isWildcard
    (exec hs (subcommand false) w).
Proof.
  unfold SubcommandRepository._cmd_del_assets, confirmed_delete, confirmation,
    only_writes.
  cbv zeta. cbn [negb].
  run_all hs; cbn; intros Hreal; try discriminate;
    eexists _, _, _, _, _, _;
    (split; [reflexivity|]); (split; [eassumption|]); repeat constructor.
Qed.

Lemma root_confirmed w :
  existsb (is_delete_assets false) (trace (exec hr (root false) w)) = true →
  confirmed_delete retrieving_r repoName assetName assetMatchOption
    (exec hr (root false) w).
Proof.
  unfold RootCommands._cmd_del_assets, confirmed_delete, confirmation,
    only_writes.
  cbv zeta. cbn [negb].
  rewrite exec_call_bind.
  destruct (hr _ _ w) as [[e|[]] w1]; [discriminate|].
  cbn [after outcome trace]. rewrite exec_try_call.
  destruct (hr _ _ w1) as [[e|assets_list] w2]; cbn [after outcome trace].
  - destruct e; cbv beta iota; try discriminate.
    rewrite exec_call_bind_bind.
    destruct (hr _ _ w2) as [[e|[]] w3]; discriminate.
  - cbn [try_except mbind prog_bind bind].
    run_all hr; cbn; intros Hreal; try discriminate;
      eexists _, _, _, _, _, _;
      (split; [reflexivity|]); (split; [eassumption|]); repeat constructor.
Qed.

(** X15.  In a run that is not forced, of either [_cmd_del_assets], the
    matcher is called with [dryRun=False] only as the fifth call: after the
    announcement, a preview that returned at least one asset, the report of
    the assets found and a prompt that returned.  Nothing is deleted without
    a preview that the user has confirmed. *)
Theorem unforced_delete_is_confirmed w :
  (existsb (is_delete_assets false) (trace (exec hs (subcommand false) w))
   = true →
   confirmed_delete retrieving_s repoName assetName isWildcard
     (exec hs (subcommand false) w)) ∧
  (existsb (is_delete_assets false) (trace (exec hr (root false) w)) = true →
   confirmed_delete retrieving_r repoName assetName assetMatchOption
     (exec hr (root false) w)).
Proof. split; [apply subcommand_confirmed|apply root_confirmed]. Qed.

Lemma subcommand_matcher_calls doForce w :
  let calls := matcher_calls (trace (exec hs (subcommand doForce) w)) in
  let preview := (repoName, assetName, isWildcard, true) in
  let real := (repoName, assetName, isWildcard, false) in
  if doForce then calls = [real]
  else calls = [] ∨ calls = [preview] ∨ calls = [preview; real].
Proof.
  unfold SubcommandRepository._cmd_del_assets. cbv zeta.
  destruct doForce; cbn [negb]; run_all hs; cbn; auto.
Qed.

Lemma root_matcher_calls_any repo asset matchOption doForce w :
  let calls :=
    matcher_calls
      (trace (exec hr (RootCommands._cmd_del_assets PLURAL py_str repo asset
                         matchOption doForce) w)) in
  let preview := (repo, asset, matchOption, true) in
  let real := (repo, asset, matchOption, false) in
  if doForce then calls = [real]
  else calls = [] ∨ calls = [preview] ∨ calls = [preview; real].
Proof.
  unfold RootCommands._cmd_del_assets. cbv zeta.
  destruct doForce; cbn [negb].
  - run_all hr; cbn; auto.
  - rewrite exec_call_bind.
    destruct (hr _ _ w) as [[e|[]] w1]; [cbn; auto|].
    cbn [after outcome trace]. rewrite exec_try_call.
    destruct (hr _ _ w1) as [[e|assets_list] w2]; cbn [after outcome trace].
    + destruct e; cbv beta iota; try (cbn; auto; fail).
      rewrite exec_call_bind_bind.
      destruct (hr _ _ w2) as [[e|[]] w3]; cbn; auto.
    + cbn [try_except mbind prog_bind bind].
      run_all hr; cbn; auto.
Qed.

(** X16.  The calls of the matcher in a run of either [_cmd_del_assets]
    all carry the repository, the pattern and the mode the command was
    given.  A forced run makes the real call, once and alone; any other run
    makes no call, the preview alone, or the preview and then the real
    call: never two previews, two real calls or a real call first. *)
Theorem matcher_calls_of_a_run doForce w :
  (let calls := matcher_calls (trace (exec hs (subcommand doForce) w)) in
   let preview := (repoName, assetName, isWildcard, true) in
   let real := (repoName, assetName, isWildcard, false) in
   if doForce then calls = [real]
   else calls = [] ∨ calls = [preview] ∨ calls = [preview; real]) ∧
  (let calls := matcher_calls (trace (exec hr (root doForce) w)) in
   let preview := (repoName, assetName, assetMatchOption, true) in
   let real := (repoName, assetName, assetMatchOption, false) in
   if doForce then calls = [real]
   else calls = [] ∨ calls = [preview] ∨ calls = [preview; real]).
Proof.
  split; [apply subcommand_matcher_calls|apply root_matcher_calls_any].
Qed.

(** X17.  [cmd_delete] calls the matcher only for a path that splits into
    a repository, a directory and a file, and never when both [--wildcard]
    and [--regex] are given.  Every call then carries the repository, the
    pattern [directory/file] and the mode of the flags: [WILDCARD] for
    [--wildcard], [REGEX] for [--regex], [EXACT_NAME] for neither. *)
Theorem cmd_delete_matcher_calls o w :
  let r := exec hr (RootCommands.cmd_delete PLURAL py_str o) w in
  matcher_calls (trace r) = [] ∨
  ∃ repo dir file w1,
    hr _ (split_component_path (RootCommands.repository_path o)) w
    = (inr (repo, Some dir, Some file), w1) ∧
    RootCommands.wildcard o && RootCommands.regex o = false ∧
    Forall
      (λ c, ∃ dry,
         c = (repo, dir +:+ "/" +:+ file,
              if RootCommands.wildcard o then Collection.WILDCARD
              else if RootCommands.regex o then Collection.REGEX
              else Collection.EXACT_NAME,
              dry))
      (matcher_calls (trace r)).
Proof.
  intros r. subst r. unfold RootCommands.cmd_delete. rewrite exec_call_bind.
  destruct (hr _ _ w) as [[e|[[repo repoDir] file]] w1] eqn:Hsplit;
    [left; reflexivity|].
  assert (Hwrite :
    ∀ report entry,
      matcher_calls
        (trace
           (after entry
              (exec hr (call (stderr_write report);;
                        Ret INVALID_SUBCOMMAND) w1))) =
      matcher_calls [entry]).
  { intros report entry. rewrite exec_call_bind.
    destruct (hr _ _ w1) as [[e|[]] w2]; cbn;
      destruct (matcher_call entry); reflexivity. }
  destruct repoDir as [dir|]; [destruct file as [f|]|];
    try (left; rewrite Hwrite; reflexivity).
  destruct (RootCommands.wildcard o && RootCommands.regex o) eqn:Hboth;
    [left; rewrite Hwrite; reflexivity|].
  right. exists repo, dir, f, w1. split; [reflexivity|]. split; [reflexivity|].
  cbv zeta. cbn [after trace matcher_calls matcher_call entry_call].
  match goal with
  | |- context [exec hr (RootCommands._cmd_del_assets _ _ ?r ?a ?m ?d) ?w] =>
      pose proof (root_matcher_calls_any r a m d w) as Hcalls
  end.
  cbv zeta in Hcalls.
  destruct (RootCommands.force o);
    [|destruct Hcalls as [Hcalls|[Hcalls|Hcalls]]];
    rewrite Hcalls; repeat constructor; eexists; reflexivity.
Qed.

End Confirmation.

(** ** [delete_assets]: its calls, and when it returns *)

(** Runs the part of [delete_assets] that follows the calls, with a case
    for every test. *)
Ltac response_cases :=
  repeat first
    [ rewrite exec_lift_bind
    | rewrite exec_lift_bind_bind
    | match goal with
      | |- context [Py.contains ?k ?v] =>
          destruct (Py.contains k v) as [?|[|]] eqn:?
      | |- context [Py.getitem ?v ?k] => destruct (Py.getitem v k) eqn:?
      | |- context [Collection.json_loads ?v] =>
          destruct (Collection.json_loads v) eqn:?
      | |- context [Py.eq_None ?v] => destruct (Py.eq_None v) eqn:?
      | |- context [Py.eq_False ?v] => destruct (Py.eq_False v) eqn:?
      end
    | progress cbn [negb]
    | progress cbv beta iota
    | match goal with
      | |- context [exec ?h (Ret ?a ≫= ?k) ?w] =>
          change (exec h (Ret a ≫= k) w) with (exec h (k a) w)
      end ].

Lemma getitem_not_contained k v x :
  Py.contains k v = inr false → Py.getitem v k = inr x → False.
Proof.
  destruct v; cbn; try discriminate.
  destruct (Py.dict_get _ k); discriminate.
Qed.

Section DeleteAssetsRuns.
Import Collection.

Variable groovy_script : string → string.
Context {W : Type} (h : handler scriptsE W).
Variables (reponame assetRegex : string) (isWildcard dryRun : bool).

Local Abbreviation remove := (scripts_delete SCRIPT_NAME_DELETE_ASSETS).
Local Abbreviation install :=
  (scripts_create_if_missing SCRIPT_NAME_DELETE_ASSETS
     (groovy_script SCRIPT_NAME_DELETE_ASSETS)).
Local Abbreviation run_script :=
  (scripts_run SCRIPT_NAME_DELETE_ASSETS
     (Json.dumps (JDict (jsonData reponame assetRegex isWildcard dryRun)))).
Local Abbreviation invocation w :=
  (exec h (delete_assets groovy_script reponame assetRegex isWildcard dryRun) w).

Lemma delete_assets_after_the_calls w :
  (∃ e, trace (invocation w) = [Entry remove (inl e)] ∧
        outcome (invocation w) = inl e) ∨
  (∃ e, trace (invocation w) = [Entry remove (inr ()); Entry install (inl e)] ∧
        outcome (invocation w) = inl e) ∨
  (∃ e, trace (invocation w)
        = [Entry remove (inr ()); Entry install (inr ());
           Entry run_script (inl e)] ∧
        outcome (invocation w) = inl e) ∨
  (∃ response,
     trace (invocation w)
     = calls_made groovy_script reponame assetRegex isWildcard dryRun response ∧
     ∀ v, outcome (invocation w) = inr v →
          ∃ text script_result assets,
            Py.getitem response "result" = inr text ∧
            json_loads text = inr script_result ∧
            Py.getitem script_result "assets" = inr assets ∧
            (∀ success, Py.getitem script_result "success" = inr success →
                        Py.eq_False success = false) ∧
            v = normalized assets).
Proof.
  unfold delete_assets. cbv zeta.
  rewrite exec_call_bind.
  destruct (h _ remove w) as [[e|[]] w1];
    [left; exists e; split; reflexivity|right].
  cbn [after trace outcome]. rewrite exec_call_bind.
  destruct (h _ install w1) as [[e|[]] w2];
    [left; exists e; split; reflexivity|right].
  cbn [after trace outcome]. rewrite exec_call_bind.
  destruct (h _ run_script w2) as [[e|response] w3];
    [left; exists e; split; reflexivity|right].
  exists response. unfold calls_made, normalized.
  response_cases; cbn [after trace outcome]; (split; [reflexivity|]);
    intros v Hv; try discriminate.
  all: injection Hv as <-.
  all: eexists _, _, _; repeat split; try eassumption; try reflexivity.
  all: try (intros; congruence).
  all: try (intros success Hsuccess; exfalso;
            eapply getitem_not_contained; eassumption).
  all: repeat match goal with
         | H : Py.eq_None ?x = _ |- context [Py.eq_None ?x] => rewrite H
         end; reflexivity.
Qed.

(** X18.  Every invocation of [delete_assets] starts by deleting the
    installed script, installs it again only when that succeeded, and runs
    it only when both did, once, with the JSON text of [jsonData]: its calls
    are a prefix of these three, in this order, and nothing follows the
    answer of the script. *)
Theorem delete_assets_calls w :
  let r :=
    exec h (delete_assets groovy_script reponame assetRegex isWildcard dryRun)
      w in
  (∃ e, trace r = [Entry remove (inl e)] ∧ outcome r = inl e) ∨
  (∃ e, trace r = [Entry remove (inr ()); Entry install (inl e)] ∧
        outcome r = inl e) ∨
  (∃ answer,
     trace r = [Entry remove (inr ()); Entry install (inr ());
                Entry run_script answer] ∧
     ∀ e, answer = inl e → outcome r = inl e).
Proof.
  cbv zeta.
  destruct (delete_assets_after_the_calls w)
    as [H|[H|[(e & Htrace & Hout)|(response & Htrace & _)]]].
  - left. exact H.
  - right. left. exact H.
  - right. right. exists (inl e). split; [exact Htrace|].
    intros e' [= <-]. exact Hout.
  - right. right. exists (inr response). split; [exact Htrace|].
    discriminate.
Qed.


End DeleteAssetsRuns.

(** ** The two commands of [repository del-assets] *)

Section Modes.
Import Cli SubcommandRepository.
Context {W : Type} (h : handler (cliE bool) W).

Lemma matcher_calls_carry repo asset (mode : bool) doForce w :
  Forall (λ c, ∃ dry, c = (repo, asset, mode, dry))
    (matcher_calls (trace (exec h (_cmd_del_assets repo asset mode doForce) w))).
Proof.
  pose proof (subcommand_matcher_calls h repo asset mode doForce w) as Hcalls.
  cbv zeta in Hcalls.
  destruct doForce; [|destruct Hcalls as [Hcalls|[Hcalls|Hcalls]]];
    rewrite Hcalls; repeat constructor; eexists; reflexivity.
Qed.

(** X21.  [cmd_del_assets_regex] calls the matcher with [isWildcard=False]
    and [cmd_del_assets_wildcard] with [isWildcard=True], in the preview and
    in the real call alike, and both with the repository name and the
    pattern of the arguments, unchanged. *)
Theorem del_assets_commands_fix_the_mode a w :
  Forall (λ c, ∃ dry, c = (repo_name a, assets_pattern a, false, dry))
    (matcher_calls (trace (exec h (cmd_del_assets_regex a) w))) ∧
  Forall (λ c, ∃ dry, c = (repo_name a, assets_pattern a, true, dry))
    (matcher_calls (trace (exec h (cmd_del_assets_wildcard a) w))).
Proof.
  unfold cmd_del_assets_regex, cmd_del_assets_wildcard. cbv zeta.
  split; apply matcher_calls_carry.
Qed.

End Modes.

(** ** The recipe of [repository create] *)

Section Recipes.
Import Repositories.
Context {C : Type}.
Variable model_all : list C.
Variable recipes_of : C → list string.

(** X20.  [_args_to_recipe_name] returns a recipe of a class of
    [model.__all__] that the arguments map to [True] itself, and returns
    [None] exactly when the arguments map no recipe of any class to
    [True]. *)
Theorem args_to_recipe_name_is_a_true_flag args :
  (∀ recipe_name,
     _args_to_recipe_name model_all recipes_of args = Some recipe_name →
     is_True args recipe_name = true ∧
     ∃ class_, In class_ model_all ∧ In recipe_name (recipes_of class_)) ∧
  (_args_to_recipe_name model_all recipes_of args = None ↔
   ∀ class_ recipe_name,
     In class_ model_all → In recipe_name (recipes_of class_) →
     is_True args recipe_name = false).
Proof.
  unfold _args_to_recipe_name.
  induction model_all as [|c classes [IHsome IHnone]];
    cbn [_args_to_recipe_name_loop].
  - split; [discriminate|]. split; [intros _ ? ? []|reflexivity].
  - destruct (find (is_True args) (recipes_of c)) as [r|] eqn:Hfind.
    + split.
      * intros recipe_name [= <-]. apply find_some in Hfind as [Hin Htrue].
        split; [exact Htrue|]. exists c. split; [left; reflexivity|exact Hin].
      * split; [discriminate|]. intros Hnone.
        apply find_some in Hfind as [Hin Htrue].
        rewrite (Hnone c r (or_introl eq_refl) Hin) in Htrue. discriminate.
    + split.
      * intros recipe_name Hsome.
        destruct (IHsome recipe_name Hsome) as (Htrue & c' & Hc' & Hin).
        split; [exact Htrue|]. exists c'. split; [right; exact Hc'|exact Hin].
      * rewrite IHnone. split.
        -- intros Hrest c' r [<-|Hc'] Hin.
           ++ exact (find_none _ _ Hfind r Hin).
           ++ exact (Hrest c' r Hc' Hin).
        -- intros Hall c' r Hc'. apply Hall. right. exact Hc'.
Qed.

End Recipes.

(** ** Runs of the functions above *)

Lemma get_raw_by_name_returns_the_first_match_witness :
  let self := Repositories.Self mock_listing in
  let releases :=
    JDict [("name", JStr "releases"); ("format", JStr "raw");
           ("type", JStr "hosted")] in
  ∃ items before rest,
    Repositories.iter (Repositories._repositories_json self) = inr items ∧
    items = before ++ releases :: rest ∧
    Py.getitem releases "name" = inr (JStr "releases") ∧
    Forall (Repositories.named_otherwise "releases") before.
Proof.
  intros self releases.
  apply (get_raw_by_name_returns_the_first_match self "releases" releases).
  reflexivity.
Defined.

Lemma get_by_name_instantiates_witness :
  let self := Repositories.Self mock_listing in
  let inst :=
    Repositories.Instantiate "HostedRepository" [JStr "releases"]
      [("recipe", JStr "raw")] in
  ∃ raw_repo,
    Repositories.get_raw_by_name self "releases" = inr raw_repo ∧
    In (Repositories.class_called inst) mock_model_all ∧
    Repositories.raw_repo_to_class_name ["raw"] mock_title raw_repo
    = inr (id (Repositories.class_called inst)) ∧
    Repositories.args_given inst = [JStr "releases"].
Proof.
  intros self inst.
  apply (get_by_name_instantiates mock_model_all id ["raw"] mock_title self
           "releases" inst).
  reflexivity.
Defined.

Lemma create_needs_the_text_null_witness :
  let resp := JDict [("result", JStr "null")] in
  let repository :=
    Repositories.RepositoryArgument true (JDict [("name", JStr "releases")]) in
  let r :=
    exec (mock_scripts resp)
      (Repositories.create mock_groovy_script repository) () in
  (outcome r = inr (inr ()) ↔
   ∃ d, resp = JDict d ∧ Py.dict_get d "result" = Some (JStr "null")) ∧
  (∀ d, resp = JDict d →
        Py.dict_get d "result" ≠ Some (JStr "null") →
        outcome r
        = inr (inl (NexusClientCreateRepositoryError resp))).
Proof.
  intros resp repository.
  apply (create_needs_the_text_null mock_groovy_script (mock_scripts resp)
           repository () () () resp); reflexivity.
Defined.

Lemma cmd_upload_exit_codes_witness :
  let PLURAL : string → Z → string :=
    λ word count, if (count =? 1)%Z then word else word +:+ "s" in
  let a := RootMore.UploadArgs "dist" "releases/app" false false in
  let r := exec (mock_root (-2)) (RootMore.cmd_upload PLURAL a) () in
  ∃ message written,
    trace r =
      [ Entry (RootMore.stderr_write
                 ("Uploading dist to releases/app" +:+ Cli.nl)) (inr ());
        Entry (RootMore.nexus_upload "dist" "releases/app" false true)
          (inr (-2)%Z);
        Entry (RootMore.stderr_write message) written ] ∧
    (∀ e, written = inl e → outcome r = inl e) ∧
    (written = inr () → outcome r = inr (inr Cli.SUCCESS)) ∧
    message = "Uploaded -2 files to releases/app" +:+ Cli.nl.
Proof.
  intros PLURAL a.
  apply (cmd_upload_exit_codes PLURAL (mock_root (-2)) a () () () (-2)%Z);
    reflexivity.
Defined.

Lemma cmd_download_exit_codes_witness :
  let PLURAL : string → Z → string :=
    λ word count, if (count =? 1)%Z then word else word +:+ "s" in
  let a := RootMore.DownloadArgs "releases/app" "dist" false false in
  let r := exec (mock_root 0) (RootMore.cmd_download PLURAL a) () in
  ∃ message written,
    trace r =
      [ Entry (RootMore.stderr_write
                 ("Downloading releases/app to dist" +:+ Cli.nl)) (inr ());
        Entry (RootMore.nexus_download "releases/app" "dist" false false)
          (inr 0%Z);
        Entry (RootMore.stderr_write message) written ] ∧
    (∀ e, written = inl e → outcome r = inl e) ∧
    (written = inr () →
     outcome r = inr (inl (SystemExit Cli.NO_FILES))) ∧
    message = "WARNING: no files were download'ed.".
Proof.
  intros PLURAL a.
  apply (cmd_download_exit_codes PLURAL (mock_root 0) a () () () 0%Z);
    reflexivity.
Defined.

Lemma unforced_delete_is_confirmed_witness :
  let found := inr (JList [JStr "/r/a"]) in
  confirmed_delete
    (Cli.print ("Retrieving assets matching EXACT_NAME " +:+ Cli.quoted "/r/a"
                +:+ " from repository " +:+ Cli.quoted "repo"))
    "repo" "/r/a" Collection.EXACT_NAME
    (exec (mock_cli found found)
       (RootCommands._cmd_del_assets mock_PLURAL mock_str "repo" "/r/a"
          Collection.EXACT_NAME false) ()).
Proof.
  intros found.
  apply (proj2
           (unforced_delete_is_confirmed mock_PLURAL mock_str
              (mock_cli found found) (mock_cli found found) "repo" "/r/a"
              true Collection.EXACT_NAME ())).
  reflexivity.
Defined.

